(** * serpentTools: homogenized-universe store, depleted-material slicing
      and detector reader

    A shallow embedding of three source files of serpentTools,

      - [serpentTools/objects/containers.py]  (class [HomogUniv]),
      - [serpentTools/objects/materials.py]   (class [DepletedMaterial]),
      - [serpentTools/parsers/detector.py]    (class [DetectorReader]),

    together with the properties of their public operations.  Python
    dictionaries are finite maps ([gmap]), exceptions are values of an
    outcome type, and a method is a computation over the object it is
    called on and the message log of the [messages] module. *)

From Stdlib Require Import ZArith Lia String Ascii DecimalString.
From stdpp Require Import base option list strings gmap.

Set Default Proof Using "Type".

(** * The Python run time the three files rely on *)

Module py.

(** The exception classes the code raises, or that the interpreter raises
    on its behalf.  [KeyError] and [AttributeError] carry their message,
    which for a failed dictionary subscript is the key. *)
Inductive exn : Type :=
| KeyError (msg : string)
| AttributeError (msg : string)
| TypeError
| ValueError
| IndexError.

Inductive outcome (A : Type) : Type :=
| Return (a : A)
| Raise (e : exn).
Global Arguments Return {A} a.
Global Arguments Raise {A} e.

(** Severity of a message handed to the [messages] module. *)
Inductive level : Type := DEBUG | INFO | WARNING | ERROR.

(** What a method runs in: the object bound to [self] and the messages
    emitted so far, oldest first. *)
Record world (O : Type) : Type := World { self : O; log : list (level * string) }.
Global Arguments World {O} self log.
Global Arguments self {O} w.
Global Arguments log {O} w.

(** A method body: it ends by returning or by raising, and in both cases
    leaves the world as mutated up to that point. *)
Definition M (O A : Type) : Type := world O → outcome A * world O.

Definition ret {O A} (a : A) : M O A := λ w, (Return a, w).
Definition bind {O A B} (m : M O A) (k : A → M O B) : M O B :=
  λ w, match m w with
       | (Return a, w') => k a w'
       | (Raise e, w') => (Raise e, w')
       end.
Definition raise {O A} (e : exn) : M O A := λ w, (Raise e, w).
Definition gets {O A} (f : O → A) : M O A := λ w, (Return (f (self w)), w).
Definition modify {O} (f : O → O) : M O unit :=
  λ w, (Return tt, World (f (self w)) (log w)).
Definition lift {O A} (o : outcome A) : M O A := λ w, (o, w).
Definition emit {O} (l : level) (msg : string) : M O unit :=
  λ w, (Return tt, World (self w) (log w ++ [(l, msg)])).

(** A body that only reads leaves the world as it found it, however it
    ends. *)
Definition reads_only {O A} (m : M O A) : Prop := ∀ w, (m w).2 = w.

Global Instance M_ret O : MRet (M O) := @ret O.
Global Instance M_bind O : MBind (M O) := λ A B k m, bind m k.

(** [for x in xs: body x], stopping at the first exception. *)
Fixpoint for_each {O A} (body : A → M O unit) (xs : list A) : M O unit :=
  match xs with
  | [] => ret tt
  | x :: xs' => body x ;; for_each body xs'
  end.

(** A list comprehension whose element expression may raise. *)
Fixpoint comprehension {A B} (f : A → outcome B) (xs : list A) : outcome (list B) :=
  match xs with
  | [] => Return []
  | x :: xs' =>
      match f x with
      | Raise e => Raise e
      | Return y =>
          match comprehension f xs' with
          | Raise e => Raise e
          | Return ys => Return (y :: ys)
          end
      end
  end.

(** [d[k]] on a dictionary: a missing key raises [KeyError(k)]. *)
Definition subscript {A} (d : gmap string A) (k : string) : outcome A :=
  match d !! k with
  | Some a => Return a
  | None => Raise (KeyError k)
  end.

(** [xs.index(x)]: the first position of [x], [None] standing for the
    [ValueError] of a missing element. *)
Fixpoint index {A} `{EqDecision A} (x : A) (xs : list A) : option nat :=
  match xs with
  | [] => None
  | y :: xs' => if decide (y = x) then Some 0 else S <$> index x xs'
  end.

(** The line-feed character of a Python string literal. *)
Definition newline : string := String "010"%char "".

(** [sub in s] on strings: [sub] occurs in [s] as a contiguous run. *)
Fixpoint contains (sub s : string) : bool :=
  match s with
  | EmptyString => String.prefix sub EmptyString
  | String _ s' => String.prefix sub s || contains sub s'
  end.

(** [sep.join(xs)]. *)
Fixpoint join (sep : string) (xs : list string) : string :=
  match xs with
  | [] => ""
  | [x] => x
  | x :: xs' => x +:+ sep +:+ join sep xs'
  end.

(** [any(xs)] on a list of strings: some element is non-empty. *)
Definition any (xs : list string) : bool :=
  existsb (λ s, negb (String.eqb s "")) xs.

End py.

(** * The [messages] module *)

Module messages.
Import py.

(** Modelled from the spec: [serpentTools.settings.messages], which
    [detector.py] imports also as [serpentTools.messages], is not part of
    the three files.  The spec treats logging as an external collaborator
    and calls its warnings and errors non-fatal reports: a call records
    the message at its level and returns [None]. *)
Definition debug {O} (msg : string) : M O unit := emit DEBUG msg.

(** Modelled from the spec: as [debug], at level [INFO]. *)
Definition info {O} (msg : string) : M O unit := emit INFO msg.

(** Modelled from the spec: as [debug], at level [WARNING]; the spec's
    non-fatal overwrite warning. *)
Definition warning {O} (msg : string) : M O unit := emit WARNING msg.

(** Modelled from the spec: as [debug], at level [ERROR]; the spec's
    non-fatal but loud error. *)
Definition error {O} (msg : string) : M O unit := emit ERROR msg.

End messages.

(** * [serpentTools/objects/containers.py] *)

Module containers.
Import py.

Section HomogUniv.
(** The values stored for a variable are whatever the readers hand in. *)
Context {V : Type}.
(** [_SupportingObject._convertVariableName], defined in
    [serpentTools/objects/__init__.py], outside the three files: the
    normalisation of a variable name. *)
Variable _convertVariableName : string → string.

Record HomogUniv : Type := {
  name : string;
  bu : Z;
  step : Z;
  day : Z;
  b1Exp : gmap string V;
  infExp : gmap string V;
  b1Unc : gmap string V;
  infUnc : gmap string V;
}.

(** [_lookup] returns one of the four dictionaries of the object itself,
    not a copy: the caller's assignment through it must land in the
    object.  A [dictref] names the attribute. *)
Inductive dictref : Type := B1Exp | InfExp | B1Unc | InfUnc.

Definition deref (r : dictref) (u : HomogUniv) : gmap string V :=
  match r with
  | B1Exp => b1Exp u
  | InfExp => infExp u
  | B1Unc => b1Unc u
  | InfUnc => infUnc u
  end.

Definition assign (r : dictref) (d : gmap string V) (u : HomogUniv) : HomogUniv :=
  match r with
  | B1Exp => {| name := name u; bu := bu u; step := step u; day := day u;
                b1Exp := d; infExp := infExp u; b1Unc := b1Unc u; infUnc := infUnc u |}
  | InfExp => {| name := name u; bu := bu u; step := step u; day := day u;
                 b1Exp := b1Exp u; infExp := d; b1Unc := b1Unc u; infUnc := infUnc u |}
  | B1Unc => {| name := name u; bu := bu u; step := step u; day := day u;
                b1Exp := b1Exp u; infExp := infExp u; b1Unc := d; infUnc := infUnc u |}
  | InfUnc => {| name := name u; bu := bu u; step := step u; day := day u;
                 b1Exp := b1Exp u; infExp := infExp u; b1Unc := b1Unc u; infUnc := d |}
  end.

(** [HomogUniv(container, name, bu, step, day)]. *)
Definition __init__ (name : string) (bu step day : Z) : HomogUniv :=
  {| name := name; bu := bu; step := step; day := day;
     b1Exp := ∅; infExp := ∅; b1Unc := ∅; infUnc := ∅ |}.

(** The [uncertainty] argument as the caller passes it: a [bool], or an
    object of another type. *)
Inductive flag : Type := Bool (b : bool) | NotBool.

(** [if not isinstance(uncertainty, bool): raise messages.error(...)]:
    [messages.error] returns [None], and raising [None] is a
    [TypeError]. *)
Definition check_flag (uncertainty : flag) : M HomogUniv bool :=
  match uncertainty with
  | Bool b => mret b
  | NotBool =>
      messages.error "Uncertainty must be a boolean variable" ;;
      raise TypeError
  end.

(** The function falls off its end after [messages.error], so a name of
    neither family yields [None]. *)
Definition _lookup (variablename : string) (uncertainty : bool)
  : M HomogUniv (option dictref) :=
  if contains "inf" variablename then
    if negb uncertainty then mret (Some InfExp) else mret (Some InfUnc)
  else if contains "b1" variablename then
    if negb uncertainty then mret (Some B1Exp) else mret (Some B1Unc)
  else
    messages.error "Neither inf, nor b1 in the string" ;;
    mret None.

(** [variablename in setter] on [None] raises [TypeError]. *)
Definition set (variablename : string) (variablevalue : V) (uncertainty : flag)
  : M HomogUniv unit :=
  let variablename := _convertVariableName variablename in
  uncertainty ← check_flag uncertainty;
  setter ← _lookup variablename uncertainty;
  match setter with
  | None => raise TypeError
  | Some r =>
      present ← gets (λ u, bool_decide (is_Some (deref r u !! variablename)));
      (if present : bool then messages.warning "The variable will be overwritten"
       else mret tt) ;;
      modify (λ u, assign r (<[variablename := variablevalue]> (deref r u)) u)
  end.

(** What [get] hands back: [x], or the tuple [(x, dx)].  A component is
    [None] when the dictionary has no entry for the name. *)
Inductive got : Type :=
| Value (x : option V)
| Tuple (x dx : option V).

(** [setter.get] on [None] raises [AttributeError]. *)
Definition get (variablename : string) (uncertainty : flag) : M HomogUniv got :=
  let variablename := _convertVariableName variablename in
  uncertainty ← check_flag uncertainty;
  setter ← _lookup variablename uncertainty;
  match setter with
  | None => raise (AttributeError "'NoneType' object has no attribute 'get'")
  | Some r =>
      x ← gets (λ u, deref r u !! variablename);
      if negb uncertainty then mret (Value x)
      else
        dx ← gets (λ u, deref r u !! variablename);
        mret (Tuple x dx)
  end.

End HomogUniv.

Global Arguments HomogUniv V : clear implicits.
Global Arguments got V : clear implicits.

End containers.

(** * The part of [numpy] the code uses *)

Module numpy.
Import py.

Section ndarray.
Context {T : Type} `{EqDecision T}.

(** Arrays of one and of two dimensions.  A two-dimensional array is the
    list of its rows, all of one length. *)
Inductive ndarray : Type :=
| Arr1 (xs : list T)
| Arr2 (rows : list (list T)).

(** [len(a.shape)] *)
Definition ndim (a : ndarray) : nat :=
  match a with Arr1 _ => 1 | Arr2 _ => 2 end.

(** [a.shape[0]], which is also [len(a)] *)
Definition shape0 (a : ndarray) : nat :=
  match a with Arr1 xs => length xs | Arr2 rows => length rows end.

(** Indexing with a list of positions selects along the first axis:
    elements of a one-dimensional array, whole rows of a two-dimensional
    one.  A position past the end raises [IndexError]. *)
Definition take_list {A} (xs : list A) (idx : list nat) : outcome (list A) :=
  comprehension
    (λ i, match xs !! i with Some x => Return x | None => Raise IndexError end)
    idx.

Definition take (a : ndarray) (idx : list nat) : outcome ndarray :=
  match a with
  | Arr1 xs =>
      match take_list xs idx with
      | Return ys => Return (Arr1 ys)
      | Raise e => Raise e
      end
  | Arr2 rows =>
      match take_list rows idx with
      | Return rs => Return (Arr2 rs)
      | Raise e => Raise e
      end
  end.

(** [x in a]: some element of [a], in any row, equals [x]. *)
Definition elem (x : T) (a : ndarray) : bool :=
  match a with
  | Arr1 xs => bool_decide (x ∈ xs)
  | Arr2 rows => bool_decide (x ∈ concat rows)
  end.

(** What iterating over [a] yields, paired with the test [xx in points]
    for a Python list [points].  An element of a one-dimensional array
    is compared as a number.  A row of a two-dimensional array is
    compared element-wise and the comparison is then read as one truth
    value: that of its only element for a row of length one, [False]
    for an empty row, and a [ValueError] for a longer row.  Nothing is
    compared when [points] is empty. *)
Definition row_in (row : list T) (points : list T) : outcome bool :=
  match points, row with
  | [], _ => Return false
  | _, [] => Return false
  | _, [x] => Return (bool_decide (x ∈ points))
  | _, _ => Raise ValueError
  end.

Definition enumerate_in (a : ndarray) (points : list T) : outcome (list (nat * bool)) :=
  match a with
  | Arr1 xs => Return (imap (λ i x, (i, bool_decide (x ∈ points))) xs)
  | Arr2 rows =>
      comprehension
        (λ '(i, row), match row_in row points with
                      | Return b => Return (i, b)
                      | Raise e => Raise e
                      end)
        (imap (λ i row, (i, row)) rows)
  end.

(** [dst[i, :] = src] where row [i] of [dst] has [width] entries: [src]
    must have that length, or length one, in which case its element is
    repeated.  Returns the new row. *)
Definition broadcast_row (width : nat) (src : list T) : outcome (list T) :=
  if decide (length src = width) then Return src
  else match src with
       | [x] => Return (replicate width x)
       | _ => Raise ValueError
       end.

End ndarray.

Global Arguments ndarray T : clear implicits.

End numpy.

(** * [serpentTools/objects/materials.py] *)

Module materials.
Import py numpy.

(** The numbers on a time axis, as far as the code looks at them: it
    compares them with [==] and prints them with [str], which never
    gives an empty string for a number.  (A NaN, which differs from
    itself, is outside this interface.) *)
Class Number (T : Type) : Type := {
  number_eq_dec :: EqDecision T;
  str : T → string;
  str_nonempty : ∀ t, str t ≠ "";
}.

Section DepletedMaterial.
Context {T : Type} `{Number T}.

(** [name] and [origin] are set by [NamedObject.__init__]; the other
    attributes are those of [DepletedMaterial.__init__], the axis
    metadata being taken from the parser. *)
Record DepletedMaterial : Type := {
  name : string;
  origin : string;
  data : gmap string (ndarray T);
  zai : option (list Z);
  names : option (list string);
  days : option (ndarray T);
  depBurnup : option (ndarray T);
  __burnup__ : option (ndarray T);
  __adens__ : option (ndarray T);
  __mdens__ : option (ndarray T);
}.

(** The [names] argument of [getValues]: [None], one isotope given as a
    string or as an integer, or a list of isotope names. *)
Inductive isotopes_arg : Type :=
| NoneArg
| StrArg (s : string)
| IntArg (z : Z)
| ListArg (l : list string).

(** Truth value of the argument in [if names] and [if not isotopes]. *)
Definition truthy (a : isotopes_arg) : bool :=
  match a with
  | NoneArg => false
  | StrArg s => negb (String.eqb s "")
  | IntArg z => negb (Z.eqb z 0)
  | ListArg l => match l with [] => false | _ => true end
  end.

(** [self.days if xUnits == 'days' else self.data[xUnits]] *)
Definition x_axis (xUnits : string) : M DepletedMaterial (option (ndarray T)) :=
  if String.eqb xUnits "days" then gets days
  else
    d ← gets data;
    a ← lift (subscript d xUnits);
    mret (Some a).

(** [time not in valid] raises [TypeError] when [valid] is [None]; it is
    evaluated once per requested point. *)
Definition _checkTimePoints (xUnits : string) (timePoints : list T)
  : M DepletedMaterial (list string) :=
  valid ← x_axis xUnits;
  match valid, timePoints with
  | None, [] => mret []
  | None, _ :: _ => raise TypeError
  | Some valid, _ =>
      mret (str <$> filter (λ time, elem time valid = false) timePoints)
  end.

(** Returns [(xVals, colIndices)]; either may be [None]. *)
Definition _getXSlice (xUnits : string) (timePoints : option (list T))
  : M DepletedMaterial (option (ndarray T) * option (list nat)) :=
  allX ← x_axis xUnits;
  match timePoints with
  | Some timePoints =>
      match allX with
      | None => raise TypeError
      | Some allX =>
          marks ← lift (enumerate_in allX timePoints);
          let colIndices := fst <$> filter (λ m, snd m = true) marks in
          xVals ← lift (take allX colIndices);
          mret (Some xVals, Some colIndices)
      end
  | None => mret (allX, None)
  end.

(** An integer is never equal to an isotope name, so [index] fails on
    one. *)
Definition _getIsoID (isotopes : isotopes_arg) : M DepletedMaterial (list nat) :=
  self_names ← gets names;
  if negb (truthy isotopes) then
    match self_names with
    | None => raise TypeError
    | Some ns => mret (seq 0 (length ns))
    end
  else
    match isotopes with
    | IntArg _ =>
        match self_names with
        | None => raise (AttributeError "'NoneType' object has no attribute 'index'")
        | Some _ => raise ValueError
        end
    | _ =>
        let isoList := match isotopes with
                       | StrArg s => [s]
                       | ListArg l => l
                       | _ => []
                       end in
        lift (comprehension
                (λ isotope,
                   match self_names with
                   | None =>
                       Raise (AttributeError
                                "'NoneType' object has no attribute 'index'")
                   | Some ns =>
                       match index isotope ns with
                       | Some i => Return i
                       | None => Raise ValueError
                       end
                   end)
                isoList)
    end.

(** Truth value of [colIndices]: [None] and the empty list are false. *)
Definition selected (colIndices : option (list nat)) : option (list nat) :=
  match colIndices with
  | Some (_ :: _) => colIndices
  | _ => None
  end.

Definition getValues (xUnits yUnits : string) (timePoints : option (list T))
    (isotopes : isotopes_arg) : M DepletedMaterial (ndarray T) :=
  match timePoints with
  | Some timePoints =>
      timeCheck ← _checkTimePoints xUnits timePoints;
      if any timeCheck then
        file ← gets origin;
        raise (KeyError ("The following times were not present in file "
                         +:+ file +:+ newline +:+ join ", " timeCheck))
      else mret tt
  | None => mret tt
  end ;;
  self_names ← gets names;
  match truthy isotopes, self_names with
  | true, None =>
      n ← gets name;
      raise (AttributeError
               ("Isotope names not stored on DepletedMaterial " +:+ n +:+ "."))
  | _, _ => mret tt
  end ;;
  '(xVals, colIndices) ← _getXSlice xUnits timePoints;
  rowIndices ← _getIsoID isotopes;
  d ← gets data;
  allY ← lift (subscript d yUnits);
  if (shape0 allY =? 1) || (ndim allY =? 1) then
    match selected colIndices with
    | Some colIndices => lift (take allY colIndices)
    | None => mret allY
    end
  else
    match xVals with
    | None => raise TypeError
    | Some xVals =>
        let allRows := match allY with Arr2 rows => rows | Arr1 _ => [] end in
        yVals ← lift (comprehension
                        (λ rowId,
                           match allRows !! rowId with
                           | None => Raise IndexError
                           | Some row =>
                               match match selected colIndices with
                                     | Some colIndices => take_list row colIndices
                                     | None => Return row
                                     end with
                               | Raise e => Raise e
                               | Return src => broadcast_row (shape0 xVals) src
                               end
                           end)
                        rowIndices);
        mret (Arr2 yVals)
    end.

(** The positions of a one-dimensional axis whose value is among
    [points], in increasing order: the [colIndices] of [_getXSlice] on
    such an axis. *)
Definition columns (axis points : list T) : list nat :=
  fst <$> filter (λ m, snd m = true)
                 (imap (λ i x, (i, bool_decide (x ∈ points))) axis).

(** What the time-point check needs in order to pass: no points were
    given, or every given point is on the resolved x-axis. *)
Definition time_points_present (xUnits : string) (tp : option (list T))
    (w : world DepletedMaterial) : Prop :=
  match tp with
  | None => True
  | Some timePoints =>
      ∃ valid, (x_axis xUnits w).1 = Return (Some valid) ∧
               ∀ time, time ∈ timePoints → elem time valid = true
  end.

End DepletedMaterial.

Global Arguments DepletedMaterial T : clear implicits.

End materials.

(** * [serpentTools/parsers/detector.py] *)

Module detector.
Import py numpy.

(** ** String operations of the reader *)

(** The characters [str.split()] treats as separators, among the first
    256 code points: 9 to 13, 28 to 32, 133 (next line) and 160
    (no-break space). *)
Definition isspace (a : ascii) : bool :=
  let n := nat_of_ascii a in
  (9 <=? n) && (n <=? 13) || (28 <=? n) && (n <=? 32)
  || (n =? 133) || (n =? 160).

(** [s.split()]: the maximal runs of non-space characters of [s];
    [word] is the run being read. *)
Fixpoint split_from (word s : string) : list string :=
  match s with
  | EmptyString => if String.eqb word "" then [] else [word]
  | String a s' =>
      if isspace a
      then (if String.eqb word "" then [] else [word]) ++ split_from "" s'
      else split_from (word +:+ String a "") s'
  end.
Definition split (s : string) : list string := split_from "" s.

(** [s.split(' ')[0]]: what precedes the first blank. *)
Fixpoint first_field (s : string) : string :=
  match s with
  | EmptyString => ""
  | String a s' => if Ascii.eqb a " " then "" else String a (first_field s')
  end.

(** [s[n:]] *)
Fixpoint slice_from (n : nat) (s : string) : string :=
  match n, s with
  | S n', String _ s' => slice_from n' s'
  | _, _ => s
  end.

(** [s[:-1]] *)
Fixpoint but_last (s : string) : string :=
  match s with
  | EmptyString => ""
  | String a EmptyString => ""
  | String a s' => String a (but_last s')
  end.

(** [s[-1]], which raises [IndexError] on the empty string. *)
Fixpoint last_char (s : string) : outcome string :=
  match s with
  | EmptyString => Raise IndexError
  | String a EmptyString => Return (String a "")
  | String _ s' => last_char s'
  end.

(** Number of columns/bins in a single detector line. *)
Definition NUM_COLS : nat := 12.

Section DetectorReader.
Context {T : Type}.
(** Python's [float] on a token: [None] stands for its [ValueError]. *)
Variable float : string → option T.

(** Modelled from the spec: class [Detector] of
    [serpentTools.objects.containers] is imported by the reader but is
    not in the three files.  The spec's binned record container has a
    name, a tally array that [addTallyData] sets, and a mapping [grids]
    from bin-dimension label to array, empty at creation. *)
Record Detector : Type := {
  name : string;
  tallies : option (ndarray T);
  grids : gmap (option string) (ndarray T);
}.

(** Modelled from the spec: [Detector(detName)], a container without
    tally data and without grids. *)
Definition Detector__init__ (name : string) : Detector :=
  {| name := name; tallies := None; grids := ∅ |}.

(** Modelled from the spec: [detector.addTallyData(data)] stores [data]
    as the tally array. *)
Definition addTallyData (data : ndarray T) (d : Detector) : Detector :=
  {| name := name d; tallies := Some data; grids := grids d |}.

(** [detector.grids[binType] = data] *)
Definition set_grid (binType : option string) (data : ndarray T) (d : Detector)
  : Detector :=
  {| name := name d; tallies := tallies d;
     grids := <[binType := data]> (grids d) |}.

(** [settings_names] is [self.settings['names']], which [BaseReader]
    loads. *)
Record DetectorReader : Type := {
  filePath : string;
  settings_names : list string;
  detectors : gmap string Detector;
  _loadAll : bool;
  detCount : nat;
}.

Definition __init__ (filePath : string) (settings_names : list string)
  : DetectorReader :=
  {| filePath := filePath;
     settings_names := settings_names;
     detectors := ∅;
     _loadAll := match settings_names with [] => true | _ => false end;
     detCount := 0 |}.

Definition set_detectors (ds : gmap string Detector) (r : DetectorReader)
  : DetectorReader :=
  {| filePath := filePath r; settings_names := settings_names r;
     detectors := ds; _loadAll := _loadAll r; detCount := detCount r |}.

Definition set_detCount (n : nat) (r : DetectorReader) : DetectorReader :=
  {| filePath := filePath r; settings_names := settings_names r;
     detectors := detectors r; _loadAll := _loadAll r; detCount := n |}.

(** The first half of [_addDetector]: an array with one row per line of
    the chunk, [NUM_COLS] wide for a tally and as wide as the first
    line has tokens for a grid, filled line by line.  A row is assigned
    under numpy's broadcasting rule. *)
Definition parse_data (chunk : list string) (binType : option string)
  : outcome (ndarray T) :=
  match match binType, chunk with
        | None, _ => Return NUM_COLS
        | Some _, [] => Raise IndexError
        | Some _, line :: _ => Return (length (split line))
        end with
  | Raise e => Raise e
  | Return ncols =>
      match comprehension
              (λ line,
                 match comprehension
                         (λ xx, match float xx with
                                | Some x => Return x
                                | None => Raise ValueError
                                end)
                         (split line) with
                 | Raise e => Raise e
                 | Return xs => broadcast_row ncols xs
                 end)
              chunk with
      | Raise e => Raise e
      | Return rows => Return (Arr2 rows)
      end
  end.

Definition _addDetector (chunk : list string) (detName : string)
    (binType : option string) : M DetectorReader unit :=
  data ← lift (parse_data chunk binType);
  ds ← gets detectors;
  match ds !! detName with
  | None =>
      (* new detector, this data is the tallies *)
      let detector := addTallyData data (Detector__init__ detName) in
      modify (set_detectors (<[detName := detector]> ds)) ;;
      messages.debug ("Adding detector " +:+ detName)
  | Some detector =>
      (* detector has already been defined, this must be a mesh *)
      modify (set_detectors (<[detName := set_grid binType data detector]> ds)) ;;
      messages.debug ("Added bin data " +:+ default "None" binType
                      +:+ " to detector " +:+ detName)
  end.

(** The body of the loop of [_read], on one chunk. *)
Definition read_chunk (chunk : list string) : M DetectorReader unit :=
  match chunk with
  | [] => raise IndexError
  | first :: chunk =>
      let detString := slice_from 3 (first_field first) in
      ds ← gets detectors;
      if bool_decide (is_Some (ds !! but_last detString)) then
        binType ← lift (last_char detString);
        _addDetector chunk (but_last detString) (Some binType)
      else
        requested ← gets settings_names;
        loadAll ← gets _loadAll;
        if bool_decide (detString ∈ requested) || loadAll then
          _addDetector chunk detString None
        else mret tt
  end.

(** [chunks] is what [KeywordParser.yieldChunks] yields for the file:
    each chunk is the list of its lines, the line that starts with
    the keyword first. *)
Definition _read (chunks : list (list string)) : M DetectorReader unit :=
  file ← gets filePath;
  messages.info ("Preparing to read " +:+ file) ;;
  for_each read_chunk chunks ;;
  messages.info "Done".

(** [lines] are the lines of the file. *)
Definition _precheck (lines : list string) : M DetectorReader unit :=
  for_each
    (λ line,
       match split line with
       | [] => mret tt
       | sline0 :: _ =>
           if contains "DET" sline0
           then modify (λ r, set_detCount (detCount r + 1) r)
           else mret tt
       end)
    lines.

Definition _postcheck : M DetectorReader unit :=
  expected ← gets detCount;
  ds ← gets detectors;
  if bool_decide (expected ≠ size ds) then
    file ← gets filePath;
    messages.error ("Did not parse expected number of detectors in file"
                    +:+ newline +:+ file)
  else mret tt.

(** Every detector of [ds] is still in [ds'], with the tally array it
    had. *)
Definition keeps_tallies (ds ds' : gmap string Detector) : Prop :=
  ∀ n d, ds !! n = Some d →
         ∃ d', ds' !! n = Some d' ∧ name d' = name d ∧ tallies d' = tallies d.

(** What holds of the detectors of a reader at any time: a detector is
    stored under its own name, it has a tally array and every row of
    that array has [NUM_COLS] entries, and, unless all detectors are
    loaded, its name is one of the requested names. *)
Definition well_formed (r : DetectorReader) : Prop :=
  ∀ n d, detectors r !! n = Some d →
         name d = n ∧
         (∃ rows, tallies d = Some (Arr2 rows) ∧
                  Forall (λ row, length row = NUM_COLS) rows) ∧
         (_loadAll r = false → n ∈ settings_names r).

(** The width of the array [_addDetector] allocates for a chunk that
    it can read. *)
Definition width_of (chunk : list string) (binType : option string) : nat :=
  match binType, chunk with
  | None, _ => NUM_COLS
  | Some _, line :: _ => length (split line)
  | Some _, [] => 0
  end.

(** The lines [_precheck] counts: those whose first token contains
    the keyword. *)
Definition starts_detector (line : string) : bool :=
  match split line with
  | [] => false
  | sline0 :: _ => contains "DET" sline0
  end.

End DetectorReader.

Global Arguments Detector T : clear implicits.
Global Arguments DetectorReader T : clear implicits.

End detector.

(** * [serpentTools/objects/materials.py]: loading and reading data *)

Module material_data.
Import py numpy materials.

Section DepletedMaterial.
Context {T : Type}.
(** [self._convertVariableName], inherited from the supporting class in
    [serpentTools/objects/__init__.py], outside the three files. *)
Variable _convertVariableName : string → string.
(** Python's [float] on a token: [None] stands for its [ValueError]. *)
Variable float : string → option T.
(** What [numpy.array] makes of rows of unequal length, which depends
    on the version of numpy. *)
Variable ragged : list (list T) → outcome (ndarray T).

Definition set_data (d : gmap string (ndarray T)) (m : DepletedMaterial T)
  : DepletedMaterial T :=
  {| name := name m; origin := origin m; data := d; zai := zai m;
     names := names m; days := days m; depBurnup := depBurnup m;
     __burnup__ := __burnup__ m; __adens__ := __adens__ m;
     __mdens__ := __mdens__ m |}.

Definition set___burnup__ (a : option (ndarray T)) (m : DepletedMaterial T)
  : DepletedMaterial T :=
  {| name := name m; origin := origin m; data := data m; zai := zai m;
     names := names m; days := days m; depBurnup := depBurnup m;
     __burnup__ := a; __adens__ := __adens__ m;
     __mdens__ := __mdens__ m |}.

Definition set___adens__ (a : option (ndarray T)) (m : DepletedMaterial T)
  : DepletedMaterial T :=
  {| name := name m; origin := origin m; data := data m; zai := zai m;
     names := names m; days := days m; depBurnup := depBurnup m;
     __burnup__ := __burnup__ m; __adens__ := a;
     __mdens__ := __mdens__ m |}.

Definition set___mdens__ (a : option (ndarray T)) (m : DepletedMaterial T)
  : DepletedMaterial T :=
  {| name := name m; origin := origin m; data := data m; zai := zai m;
     names := names m; days := days m; depBurnup := depBurnup m;
     __burnup__ := __burnup__ m; __adens__ := __adens__ m;
     __mdens__ := a |}.

(** [self[item]] *)
Definition __getitem__ (item : string) : M (DepletedMaterial T) (ndarray T) :=
  d ← gets data;
  match d !! item with
  | None =>
      n ← gets name;
      raise (KeyError ("Key " +:+ item +:+ " not found on material " +:+ n))
  | Some a => mret a
  end.

(** The three properties have one shape: fail when the category is not
    in [self.data], fill the private attribute from [self.data] when it
    is still [None], return the private attribute. *)
Definition cached (key : string) (message : string → string)
    (cache : DepletedMaterial T → option (ndarray T))
    (set_cache : option (ndarray T) → DepletedMaterial T → DepletedMaterial T)
  : M (DepletedMaterial T) (ndarray T) :=
  d ← gets data;
  match d !! key with
  | None =>
      n ← gets name;
      raise (AttributeError (message n))
  | Some a =>
      c ← gets cache;
      match c with
      | None => modify (set_cache (Some a)) ;; mret a
      | Some a' => mret a'
      end
  end.

Definition burnup : M (DepletedMaterial T) (ndarray T) :=
  cached "burnup"
         (λ n, "Burnup for material " +:+ n +:+ " has not been loaded")
         __burnup__ set___burnup__.

Definition adens : M (DepletedMaterial T) (ndarray T) :=
  cached "adens"
         (λ n, "Atomic densities for material " +:+ n
               +:+ " have not been loaded")
         __adens__ set___adens__.

Definition mdens : M (DepletedMaterial T) (ndarray T) :=
  cached "mdens"
         (λ n, "Mass densities for material " +:+ n
               +:+ " has not been loaded")
         __mdens__ set___mdens__.

(** The [rawData] argument of [addData]: a string, or a list of
    strings. *)
Inductive raw_data : Type :=
| RawStr (s : string)
| RawLines (lines : list string).

(** [[float(item) for item in line.split()]] *)
Definition floats (line : string) : outcome (list T) :=
  comprehension
    (λ item, match float item with
             | Some x => Return x
             | None => Raise ValueError
             end)
    (detector.split line).

(** [numpy.array(scratch)] for a list of rows: no rows give an empty
    one-dimensional array, rows of one length a two-dimensional one. *)
Definition array (scratch : list (list T)) : outcome (ndarray T) :=
  match scratch with
  | [] => Return (Arr1 [])
  | row :: rest =>
      if forallb (λ r, length r =? length row) rest
      then Return (Arr2 scratch)
      else ragged scratch
  end.

(** [if line:] keeps the lines that are not the empty string. *)
Definition addData (variable : string) (rawData : raw_data)
  : M (DepletedMaterial T) unit :=
  let newName := _convertVariableName variable in
  n ← gets name;
  messages.debug ("Adding " +:+ newName +:+ " data to " +:+ n) ;;
  scratch ← lift match rawData with
                 | RawStr s =>
                     match floats s with
                     | Return xs => Return (Arr1 xs)
                     | Raise e => Raise e
                     end
                 | RawLines lines =>
                     match comprehension floats
                             (filter (λ line, line ≠ "") lines) with
                     | Return rows => array rows
                     | Raise e => Raise e
                     end
                 end;
  modify (λ m, set_data (<[newName := scratch]> (data m)) m).

End DepletedMaterial.

End material_data.

(** * Instances used to run the code on concrete data *)

Module examples.
Import py numpy.

(** Python integers as axis values: [str] prints them in decimal. *)
Definition str_int (z : Z) : string := NilZero.string_of_int (Z.to_int z).

Lemma str_int_nonempty (z : Z) : str_int z ≠ "".
Proof.
  unfold str_int. destruct (Z.to_int z) as [d|d]; simpl; [|done].
  unfold NilZero.string_of_uint. by destruct d.
Qed.

#[export] Instance int_Number : materials.Number Z :=
  {| materials.str := str_int; materials.str_nonempty := str_int_nonempty |}.

(** A material with three isotopes over three time points; [adens] is an
    arbitrary three by three array. *)
Definition fuel (adens : ndarray Z) (names : option (list string))
  : materials.DepletedMaterial Z :=
  {| materials.name := "fuel";
     materials.origin := "demo_dep.m";
     materials.data := {[ "adens" := adens ]};
     materials.zai := None;
     materials.names := names;
     materials.days := Some (Arr1 [0; 10; 20]%Z);
     materials.depBurnup := None;
     materials.__burnup__ := None;
     materials.__adens__ := None;
     materials.__mdens__ := None |}.

(** Python's [float] restricted to decimal integer literals, which is all
    the example files below contain; any other token is rejected. *)
Definition float_int (xx : string) : option Z :=
  match xx with
  | EmptyString => None
  | _ => Z.of_int <$> NilZero.int_of_string xx
  end.

(** A file with three detectors and no grid, read by a reader that was
    asked for two of them: the precheck followed by the scan. *)
Definition tally_lines : list string :=
  [ "DETD1 = [";
    "1 1 1 1 1 1 1 1 1 1 5 2";
    "];";
    "";
    "DETD2 = [";
    "1 1 1 1 1 1 1 1 1 1 9 4";
    "];";
    "";
    "DETD3 = [";
    "1 1 1 1 1 1 1 1 1 1 8 6";
    "];" ].

Definition tally_chunks : list (list string) :=
  [ [ "DETD1 = ["; "1 1 1 1 1 1 1 1 1 1 5 2" ];
    [ "DETD2 = ["; "1 1 1 1 1 1 1 1 1 1 9 4" ];
    [ "DETD3 = ["; "1 1 1 1 1 1 1 1 1 1 8 6" ] ].

Definition filtered_scan : py.world (detector.DetectorReader Z) :=
  (detector._read float_int tally_chunks
     (detector._precheck tally_lines
        (World (detector.__init__ "demo_det0.m" ["D1"; "D2"]) [])).2).2.

(** Normalisation of a variable name by lower-casing its ASCII letters;
    it stands for [_convertVariableName] where the properties of
    [HomogUniv] are run on concrete names. *)
Definition lower_ascii (a : ascii) : ascii :=
  let n := nat_of_ascii a in
  if (65 <=? n) && (n <=? 90) then ascii_of_nat (n + 32) else a.

Fixpoint lower (s : string) : string :=
  match s with
  | EmptyString => ""
  | String a s' => String (lower_ascii a) (lower s')
  end.

(** The material of the examples with a burnup history loaded besides. *)
Definition burned : materials.DepletedMaterial Z :=
  material_data.set_data
    {[ "adens" := Arr2 [[1; 2; 3]; [4; 5; 6]; [7; 8; 9]]%Z;
       "burnup" := Arr1 [0; 5; 9]%Z ]}
    (fuel (Arr2 [[1; 2; 3]; [4; 5; 6]; [7; 8; 9]]%Z)
          (Some ["Xe135"; "Sm149"; "total"])).

(** A numpy that refuses rows of unequal length. *)
Definition ragged_refused (rows : list (list Z)) : outcome (ndarray Z) :=
  Raise ValueError.

End examples.

(** * Properties of [HomogUniv] *)

Section HomogUniv_spec.
Import py containers.
Context {V : Type} (conv : string → string).

Local Abbreviation set := (containers.set conv).
Local Abbreviation get := (containers.get conv).

Implicit Types (u : HomogUniv V) (w : world (HomogUniv V))
  (l : list (level * string)) (v : V).

(** The dictionary [_lookup] hands out depends on the name and the flag
    only, and finding it changes nothing. *)
Lemma _lookup_inf n (b : bool) w :
  contains "inf" n = true →
  _lookup n b w = (Return (Some (if b then InfUnc else InfExp)), w).
Proof. intros Hn. unfold _lookup. rewrite Hn. by destruct b. Qed.

Lemma _lookup_b1 n (b : bool) w :
  contains "inf" n = false → contains "b1" n = true →
  _lookup n b w = (Return (Some (if b then B1Unc else B1Exp)), w).
Proof. intros Hi Hn. unfold _lookup. rewrite Hi, Hn. by destruct b. Qed.

Lemma _lookup_neither n (b : bool) w :
  contains "inf" n = false → contains "b1" n = false →
  _lookup n b w =
    (Return None,
     World (self w) (log w ++ [(ERROR, "Neither inf, nor b1 in the string")])).
Proof. intros Hi Hn. unfold _lookup. by rewrite Hi, Hn. Qed.

Lemma _lookup_Some n (b : bool) w r :
  (_lookup n b w).1 = Return (Some r) →
  _lookup n b w = (Return (Some r), w) ∧
  r = (if contains "inf" n
       then (if b then InfUnc else InfExp)
       else (if b then B1Unc else B1Exp)).
Proof.
  unfold _lookup.
  destruct (contains "inf" n); [by destruct b; intros [= <-]|].
  destruct (contains "b1" n); [by destruct b; intros [= <-]|].
  discriminate.
Qed.

Lemma deref_assign r d u : deref r (assign r d u) = d.
Proof. by destruct r. Qed.

Lemma set_run n v (b : bool) r w :
  _lookup (conv n) b w = (Return (Some r), w) →
  set n v (Bool b) w =
    (Return tt,
     World (assign r (<[conv n := v]> (deref r (self w))) (self w))
           (if bool_decide (is_Some (deref r (self w) !! conv n))
            then log w ++ [(WARNING, "The variable will be overwritten")]
            else log w)).
Proof.
  intros Hl. unfold set, mbind, M_bind, bind; simpl. rewrite Hl; simpl.
  unfold gets; simpl. by destruct (bool_decide _).
Qed.

Lemma get_run n (b : bool) r w :
  _lookup (conv n) b w = (Return (Some r), w) →
  get n (Bool b) w =
    (Return (if b then Tuple (deref r (self w) !! conv n) (deref r (self w) !! conv n)
             else Value (deref r (self w) !! conv n)), w).
Proof.
  intros Hl. unfold get, mbind, M_bind, bind; simpl. rewrite Hl; simpl.
  by destruct b.
Qed.

(** C2.  When the dictionary that [_lookup] selects for [name] under
    [uncertainty=True] holds [dv] at the normalised name, [get(name, True)]
    returns the tuple [(dv, dv)]: both members are reads of that
    dictionary, which is one of the two uncertainty dictionaries.  The
    result is the same for every object with the same uncertainty
    dictionaries, whatever its expected-value dictionaries hold. *)
Theorem get_uncertainty_reads_uncertainty_twice
    (name : string) (dv : V) (r : dictref) u l :
  (_lookup (conv name) true (World u l)).1 = Return (Some r) →
  deref r u !! conv name = Some dv →
  (r = InfUnc ∨ r = B1Unc) ∧
  ∀ u' l', infUnc u' = infUnc u → b1Unc u' = b1Unc u →
    get name (Bool true) (World u' l')
    = (Return (Tuple (Some dv) (Some dv)), World u' l').
Proof.
  intros Hl Hdv.
  assert (r = (if contains "inf" (conv name) then InfUnc else B1Unc) ∧
          ∀ w, _lookup (conv name) true w = (Return (Some r), w)) as [Hr Hl'].
  { unfold _lookup in Hl.
    destruct (contains "inf" (conv name)) eqn:Hi.
    - injection Hl as <-. split; [done|]. intros w. by apply (_lookup_inf _ true).
    - destruct (contains "b1" (conv name)) eqn:Hb; [|done].
      injection Hl as <-. split; [done|]. intros w. by apply (_lookup_b1 _ true). }
  split; [destruct (contains "inf" (conv name)); auto|].
  intros u' l' Hinf Hb1.
  rewrite (get_run _ _ _ _ (Hl' _)). simpl.
  replace (deref r u' !! conv name) with (Some dv); [done|].
  rewrite <- Hdv. subst r.
  destruct (contains "inf" (conv name)); simpl; congruence.
Qed.

(** C6.  When the normalised name contains neither "inf" nor "b1", the
    classification failure is reported and both [set(name, v)] and
    [get(name)] abort with an exception, raised where the missing
    dictionary is first used.  The object is left as it was, so nothing is
    stored, and [get] returns nothing. *)
Theorem unclassified_name_aborts (name : string) v (b : bool) w :
  contains "inf" (conv name) = false →
  contains "b1" (conv name) = false →
  let w' := World (self w)
                  (log w ++ [(ERROR, "Neither inf, nor b1 in the string")]) in
  set name v (Bool b) w = (Raise TypeError, w') ∧
  get name (Bool b) w
  = (Raise (AttributeError "'NoneType' object has no attribute 'get'"), w').
Proof.
  intros Hi Hb w'. pose proof (_lookup_neither _ b w Hi Hb) as Hl.
  unfold set, get, mbind, M_bind, bind; simpl. by rewrite Hl.
Qed.

Lemma classified_lookup n (b : bool) :
  contains "inf" n || contains "b1" n = true →
  ∃ r, ∀ w, _lookup n b w = (Return (Some r), w).
Proof.
  destruct (contains "inf" n) eqn:Hi; simpl; intros Hb.
  - eexists. intros w. by apply _lookup_inf.
  - eexists. intros w. by apply _lookup_b1.
Qed.

(** C7.  For a name of a known family, [get(name)] right after
    [set(name, v)] returns [v] (as the tuple [(v, v)] when both calls pass
    [uncertainty=True]).  A further [set] under a name with the same
    normalised form succeeds, adds exactly one message to the log, the
    overwrite warning, and replaces the value that [get] returns. *)
Theorem set_get_roundtrip (name : string) v (b : bool) w :
  contains "inf" (conv name) || contains "b1" (conv name) = true →
  ∃ w1,
    set name v (Bool b) w = (Return tt, w1) ∧
    get name (Bool b) w1
    = (Return (if b then Tuple (Some v) (Some v) else Value (Some v)), w1) ∧
    ∀ (name' : string) v', conv name' = conv name →
      ∃ w2,
        set name' v' (Bool b) w1 = (Return tt, w2) ∧
        log w2 = log w1 ++ [(WARNING, "The variable will be overwritten")] ∧
        get name' (Bool b) w2
        = (Return (if b then Tuple (Some v') (Some v') else Value (Some v')), w2).
Proof.
  intros Hc. destruct (classified_lookup _ b Hc) as [r Hl].
  eexists. split; [apply (set_run _ _ _ _ _ (Hl w))|].
  split.
  { rewrite (get_run _ _ _ _ (Hl _)). simpl.
    rewrite deref_assign, lookup_insert_eq. by destruct b. }
  intros name' v' Hn. rewrite <- Hn in Hl.
  eexists. split; [apply (set_run _ _ _ _ _ (Hl _))|].
  split.
  { simpl. rewrite deref_assign, Hn, lookup_insert_eq.
    by rewrite bool_decide_eq_true_2. }
  rewrite (get_run _ _ _ _ (Hl _)). simpl.
  rewrite deref_assign, lookup_insert_eq. by destruct b.
Qed.

(** C10.  When the dictionary that [_lookup] selects for [name] under
    [uncertainty=False] has no entry at the normalised name, [get(name)]
    returns [None] without raising, and the object and the log are
    unchanged. *)
Theorem get_unset_returns_None (name : string) (r : dictref) w :
  (_lookup (conv name) false w).1 = Return (Some r) →
  deref r (self w) !! conv name = None →
  get name (Bool false) w = (Return (Value None), w).
Proof.
  intros Hl Hnone. apply _lookup_Some in Hl as [Hl _].
  rewrite (get_run _ _ _ _ Hl). simpl. by rewrite Hnone.
Qed.

End HomogUniv_spec.

(** * Running a method body *)

Section run.
Import py.
Context {O : Type}.

Lemma bind_Return {A B} (m : M O A) (k : A → M O B) w a w' :
  m w = (Return a, w') → (m ≫= k) w = k a w'.
Proof. intros Hm. unfold mbind, M_bind, bind. by rewrite Hm. Qed.

Lemma bind_Raise {A B} (m : M O A) (k : A → M O B) w e w' :
  m w = (Raise e, w') → (m ≫= k) w = (Raise e, w').
Proof. intros Hm. unfold mbind, M_bind, bind. by rewrite Hm. Qed.

Lemma reads_only_ret {A} (a : A) : reads_only (mret a : M O A).
Proof. done. Qed.
Lemma reads_only_raise {A} e : reads_only (raise e : M O A).
Proof. done. Qed.
Lemma reads_only_gets {A} (f : O → A) : reads_only (gets f).
Proof. done. Qed.
Lemma reads_only_lift {A} (o : outcome A) : reads_only (lift o : M O A).
Proof. done. Qed.
Lemma reads_only_bind {A B} (m : M O A) (k : A → M O B) :
  reads_only m → (∀ a, reads_only (k a)) → reads_only (m ≫= k).
Proof.
  intros Hm Hk w. unfold mbind, M_bind, bind.
  specialize (Hm w). destruct (m w) as [[a|e] w']; simpl in *; subst; [apply Hk|done].
Qed.

Lemma reads_only_run {A} (m : M O A) w : reads_only m → m w = ((m w).1, w).
Proof. intros Hm. rewrite <- (Hm w) at 3. by destruct (m w). Qed.
End run.

Create HintDb reads.
Global Hint Resolve reads_only_ret reads_only_raise reads_only_gets
  reads_only_lift : reads.

Ltac reads_only :=
  repeat first
    [ progress eauto with reads
    | apply reads_only_bind; [|intros ?]
    | match goal with
      | |- py.reads_only (match ?x with _ => _ end) => destruct x
      | |- py.reads_only (if ?b then _ else _) => destruct b
      | |- py.reads_only (let '(_, _) := ?p in _) => destruct p
      end ].

(** * Facts about strings and lists *)

Section strings.
Import py.
Local Arguments String.append !_ _ / : simpl nomatch.

Lemma prefix_app (s t : string) : String.prefix s (s +:+ t) = true.
Proof.
  induction s as [|a s IH]; [by destruct t|].
  simpl. by destruct (ascii_dec a a).
Qed.

Lemma contains_prefix (s t : string) :
  String.prefix s t = true → contains s t = true.
Proof. destruct t; simpl; [done|]. by intros ->. Qed.

Lemma contains_app_r (s pre t : string) :
  contains s t = true → contains s (pre +:+ t) = true.
Proof.
  intros Ht. induction pre as [|a pre IH]; [done|].
  simpl. rewrite IH. apply orb_true_r.
Qed.

Lemma prefix_app_l (s u post : string) :
  String.prefix s u = true → String.prefix s (u +:+ post) = true.
Proof.
  revert s. induction u as [|c u IH]; intros [|b s]; simpl; try done.
  - by destruct post.
  - destruct (ascii_dec b c); [apply IH|done].
Qed.

Lemma contains_app_l (s t post : string) :
  contains s t = true → contains s (t +:+ post) = true.
Proof.
  induction t as [|a t IH].
  - simpl. intros Hp. by apply contains_prefix, (prefix_app_l _ "").
  - change (contains s (String a t)) with (String.prefix s (String a t) || contains s t).
    change (contains s (String a t +:+ post))
      with (String.prefix s (String a t +:+ post) || contains s (t +:+ post)).
    intros [Hp|Hc]%orb_true_iff; apply orb_true_iff; [left|right; auto].
    by apply prefix_app_l.
Qed.

Lemma contains_refl (s : string) : contains s s = true.
Proof.
  apply contains_prefix. induction s as [|a s IH]; [done|].
  simpl. by destruct (ascii_dec a a).
Qed.

(** Every joined string occurs in the result of [join]. *)
Lemma contains_join (sep x : string) (xs : list string) :
  x ∈ xs → contains x (join sep xs) = true.
Proof.
  induction xs as [|y [|z xs] IH]; intros Hx.
  - by apply elem_of_nil in Hx.
  - apply list_elem_of_singleton in Hx as ->. apply contains_refl.
  - apply elem_of_cons in Hx as [->|Hx].
    + change (contains y (y +:+ sep +:+ join sep (z :: xs)) = true).
      apply contains_app_l, contains_refl.
    + change (contains x (y +:+ sep +:+ join sep (z :: xs)) = true).
      by apply contains_app_r, contains_app_r, IH.
Qed.

Lemma any_true (xs : list string) :
  xs ≠ [] → Forall (λ s, s ≠ "") xs → any xs = true.
Proof.
  destruct xs as [|x xs]; [done|]. intros _ Hne. inversion_clear Hne as [|?? Hx _].
  unfold any. simpl. destruct (String.eqb_spec x ""); [done|done].
Qed.

Lemma any_nil : any [] = false.
Proof. done. Qed.
End strings.

(** * Properties of [DepletedMaterial.getValues] *)

Section DepletedMaterial_spec.
Import py numpy materials.
Context {T : Type} `{Number T}.

Implicit Types (m : DepletedMaterial T) (w : world (DepletedMaterial T))
  (l : list (level * string)) (timePoints : list T) (valid : ndarray T).

Lemma x_axis_reads xUnits : reads_only (x_axis (T:=T) xUnits).
Proof. unfold x_axis. reads_only. Qed.

Lemma _checkTimePoints_reads xUnits timePoints :
  reads_only (_checkTimePoints xUnits timePoints).
Proof. unfold _checkTimePoints. pose proof (x_axis_reads xUnits). reads_only. Qed.

Lemma _getXSlice_reads xUnits (tp : option (list T)) :
  reads_only (_getXSlice xUnits tp).
Proof. unfold _getXSlice. pose proof (x_axis_reads xUnits). reads_only. Qed.

Lemma _getIsoID_reads isotopes : reads_only (_getIsoID (T:=T) isotopes).
Proof. unfold _getIsoID. reads_only. Qed.

(** [getValues] assigns to no attribute: whether it returns or raises,
    the material and the log are as before the call. *)
Lemma getValues_reads xUnits yUnits (tp : option (list T)) isotopes :
  reads_only (getValues xUnits yUnits tp isotopes).
Proof.
  unfold getValues.
  pose proof (_checkTimePoints_reads xUnits).
  pose proof (_getXSlice_reads xUnits tp).
  pose proof (_getIsoID_reads isotopes).
  reads_only.
Qed.

Lemma x_axis_resolved xUnits valid w :
  (x_axis xUnits w).1 = Return (Some valid) →
  x_axis xUnits w = (Return (Some valid), w).
Proof. intros Hx. by rewrite (reads_only_run _ w (x_axis_reads xUnits)), Hx. Qed.

(** On an axis that resolves, the check lists the printed form of every
    requested point that is not on it, in request order. *)
Lemma _checkTimePoints_run xUnits timePoints valid w :
  (x_axis xUnits w).1 = Return (Some valid) →
  _checkTimePoints xUnits timePoints w
  = (Return (str <$> filter (λ time, elem time valid = false) timePoints), w).
Proof.
  intros Hx%x_axis_resolved. unfold _checkTimePoints.
  by rewrite (bind_Return _ _ _ _ _ Hx).
Qed.

(** C4.  When the x-axis resolves and some requested time point is not on
    it, [getValues] raises the [KeyError] whose message ends with the
    printed forms of all missing points, joined by ", ": the printed form
    of every missing point occurs in the message.  The material and the
    log are unchanged by the failed call. *)
Theorem getValues_missing_time_points
    (xUnits yUnits : string) timePoints (isotopes : isotopes_arg) valid m l :
  (x_axis xUnits (World m l)).1 = Return (Some valid) →
  (∃ time, time ∈ timePoints ∧ elem time valid = false) →
  let missing := filter (λ time, elem time valid = false) timePoints in
  let msg := "The following times were not present in file " +:+ origin m
             +:+ newline +:+ join ", " (str <$> missing) in
  getValues xUnits yUnits (Some timePoints) isotopes (World m l)
  = (Raise (KeyError msg), World m l) ∧
  ∀ time, time ∈ timePoints → elem time valid = false →
          contains (str time) msg = true.
Proof.
  intros Hx (t0 & Ht0 & Hbad0) missing msg. split.
  - unfold getValues.
    erewrite bind_Raise; [done|].
    erewrite bind_Return; [|by apply _checkTimePoints_run].
    fold missing. rewrite any_true; [done| |].
    + intros Hnil%fmap_nil_inv.
      assert (t0 ∈ missing) as Hin by (by apply list_elem_of_filter).
      rewrite Hnil in Hin. by apply elem_of_nil in Hin.
    + apply Forall_fmap, Forall_forall. intros t _. apply str_nonempty.
  - intros t Ht Hbad. unfold msg.
    do 3 apply contains_app_r. apply contains_join.
    apply list_elem_of_fmap_2. by apply list_elem_of_filter.
Qed.

Lemma time_check_passes xUnits timePoints valid w :
  (x_axis xUnits w).1 = Return (Some valid) →
  (∀ time, time ∈ timePoints → elem time valid = true) →
  _checkTimePoints xUnits timePoints w = (Return [], w).
Proof.
  intros Hx Hall. rewrite (_checkTimePoints_run _ _ _ _ Hx).
  replace (filter _ timePoints) with (@nil T); [done|].
  symmetry. induction timePoints as [|t ts IH]; [done|].
  rewrite filter_cons, decide_False.
  - apply IH. intros t' Ht'. apply Hall. by right.
  - rewrite (Hall t); [done|by left].
Qed.

(** C5, as amended.  When isotope names are requested (a non-empty list
    or string, or a non-zero integer), the material has none loaded, and
    the time-point check passes, [getValues] raises the [AttributeError]
    about the missing names, whatever the requested names and whatever
    [xUnits] and [yUnits] are, stored or not. *)
Theorem getValues_names_not_loaded
    (xUnits yUnits : string) (tp : option (list T)) (isotopes : isotopes_arg) m l :
  truthy isotopes = true →
  names m = None →
  time_points_present xUnits tp (World m l) →
  getValues xUnits yUnits tp isotopes (World m l)
  = (Raise (AttributeError
              ("Isotope names not stored on DepletedMaterial " +:+ name m +:+ ".")),
     World m l).
Proof.
  intros Htruthy Hnames Htp. unfold getValues.
  erewrite bind_Return; cycle 1.
  { destruct tp as [timePoints|]; [|reflexivity].
    destruct Htp as (valid & Hx & Hall).
    erewrite bind_Return; [|exact (time_check_passes _ _ _ _ Hx Hall)]. reflexivity. }
  erewrite bind_Return; [|reflexivity]. simpl.
  rewrite Htruthy, Hnames. reflexivity.
Qed.

(** ** Indexing lemmas *)

Lemma comprehension_Forall2 {A B} (f : A → outcome B) (R : A → B → Prop) xs :
  Forall (λ x, ∃ y, f x = Return y ∧ R x y) xs →
  ∃ ys, comprehension f xs = Return ys ∧ Forall2 R xs ys.
Proof.
  induction 1 as [|x xs (y & Hy & HR) _ (ys & Hys & HRs)]; simpl.
  - by exists [].
  - exists (y :: ys). rewrite Hy, Hys. split; [done|by constructor].
Qed.

Lemma take_list_Return {A} (xs : list A) (idx : list nat) :
  Forall (λ i, i < length xs) idx →
  ∃ ys, take_list xs idx = Return ys ∧
        Forall2 (λ i y, xs !! i = Some y) idx ys.
Proof.
  intros Hidx. apply comprehension_Forall2.
  eapply Forall_impl; [exact Hidx|]. intros i Hi; simpl in Hi.
  destruct (lookup_lt_is_Some_2 xs i Hi) as [x Hx].
  exists x. by rewrite Hx.
Qed.

Lemma elem_of_columns (axis points : list T) i :
  i ∈ columns axis points ↔ ∃ x, axis !! i = Some x ∧ x ∈ points.
Proof.
  unfold columns. rewrite list_elem_of_fmap. split.
  - intros ([j b] & -> & [Hb Him]%list_elem_of_filter). simpl in *.
    apply elem_of_lookup_imap in Him as (k & x & [= -> ->] & Hx).
    exists x. split; [done|]. by apply bool_decide_eq_true_1 in Hb.
  - intros (x & Hx & Hin). exists (i, true). split; [done|].
    apply list_elem_of_filter. split; [done|].
    apply elem_of_lookup_imap. exists i, x. split; [|done].
    by rewrite bool_decide_eq_true_2.
Qed.

Lemma columns_bound (axis points : list T) :
  Forall (λ i, i < length axis) (columns axis points).
Proof.
  apply Forall_forall. intros i (x & Hx & _)%elem_of_columns.
  by eapply lookup_lt_Some.
Qed.

Lemma columns_nonempty (axis points : list T) x :
  x ∈ points → x ∈ axis → columns axis points ≠ [].
Proof.
  intros Hp (i & Hi)%list_elem_of_lookup Hnil.
  assert (i ∈ columns axis points) as Hin by (apply elem_of_columns; eauto).
  rewrite Hnil in Hin. by apply elem_of_nil in Hin.
Qed.

Lemma marks_length (g : nat → nat) (axis points : list T) :
  length (filter (λ m : nat * bool, m.2 = true)
                 (imap (λ i x, (g i, bool_decide (x ∈ points))) axis))
  = length (filter (λ x, x ∈ points) axis).
Proof.
  revert g. induction axis as [|x axis IH]; intros g; [done|].
  rewrite imap_cons, !filter_cons. simpl.
  destruct (decide (x ∈ points)) as [Hx|Hx].
  - rewrite bool_decide_eq_true_2 by done. simpl. f_equal. apply (IH (g ∘ S)).
  - rewrite bool_decide_eq_false_2 by done. simpl. apply (IH (g ∘ S)).
Qed.

Lemma columns_length (axis points : list T) :
  length (columns axis points) = length (filter (λ x, x ∈ points) axis).
Proof. unfold columns. rewrite length_fmap. apply (marks_length id). Qed.

(** When neither the request nor the axis repeats a value and every
    requested point is on the axis, one column is selected per requested
    point. *)
Lemma columns_length_NoDup (axis points : list T) :
  NoDup points → NoDup axis → (∀ x, x ∈ points → x ∈ axis) →
  length (columns axis points) = length points.
Proof.
  intros Hp Ha Hsub. rewrite columns_length.
  apply Permutation_length, NoDup_Permutation; [exact (NoDup_filter _ _ Ha)|done|].
  intros x. rewrite list_elem_of_filter. split; [by intros [? ?]|auto].
Qed.

(** ** The slices [getValues] computes *)

(** On a one-dimensional axis, [_getXSlice] selects the positions whose
    value is among the requested points. *)
Lemma _getXSlice_run xUnits timePoints (axis : list T) w :
  (x_axis xUnits w).1 = Return (Some (Arr1 axis)) →
  ∃ xVals,
    _getXSlice xUnits (Some timePoints) w
    = (Return (Some (Arr1 xVals), Some (columns axis timePoints)), w) ∧
    length xVals = length (columns axis timePoints).
Proof.
  intros Hx%x_axis_resolved.
  destruct (take_list_Return axis (columns axis timePoints))
    as (xVals & Htake & Hall); [apply columns_bound|].
  exists xVals. split; [|symmetry; by eapply Forall2_length].
  unfold _getXSlice. rewrite (bind_Return _ _ _ _ _ Hx).
  erewrite bind_Return; [|reflexivity].
  fold (columns axis timePoints).
  erewrite bind_Return; [done|]. unfold lift, take. by rewrite Htake.
Qed.

(** For a non-empty list of names that are all stored, [_getIsoID] gives
    the position of each in [self.names]. *)
Lemma _getIsoID_run (requested ns : list string) w :
  names (self w) = Some ns →
  requested ≠ [] →
  Forall (λ isotope, is_Some (index isotope ns)) requested →
  ∃ rowIndices,
    _getIsoID (ListArg requested) w = (Return rowIndices, w) ∧
    Forall2 (λ isotope rowId, index isotope ns = Some rowId) requested rowIndices.
Proof.
  intros Hns Hne Hall.
  destruct (comprehension_Forall2
              (λ isotope, match index isotope ns with
                          | Some i => Return i
                          | None => Raise ValueError
                          end)
              (λ isotope rowId, index isotope ns = Some rowId) requested)
    as (rowIndices & Hrun & HR).
  { eapply Forall_impl; [exact Hall|]. intros x [k Hk]. exists k. by rewrite Hk. }
  exists rowIndices. split; [|done].
  unfold _getIsoID. erewrite bind_Return; [|reflexivity]. simpl.
  rewrite Hns. destruct requested; [done|]. simpl. unfold lift.
  simpl in Hrun. by rewrite Hrun.
Qed.

(** The shape and the entries of the result for a two-dimensional
    category. *)
Lemma getValues_two_dimensional
    (xUnits yUnits : string) timePoints (requested ns : list string)
    (axis : list T) (rows : list (list T)) m l :
  (x_axis xUnits (World m l)).1 = Return (Some (Arr1 axis)) →
  data m !! yUnits = Some (Arr2 rows) →
  length rows ≠ 1 →
  Forall (λ row, length row = length axis) rows →
  names m = Some ns →
  timePoints ≠ [] →
  (∀ time, time ∈ timePoints → time ∈ axis) →
  requested ≠ [] →
  Forall (λ isotope, ∃ k, index isotope ns = Some k ∧ k < length rows) requested →
  ∃ yVals,
    getValues xUnits yUnits (Some timePoints) (ListArg requested) (World m l)
    = (Return (Arr2 yVals), World m l) ∧
    Forall2 (λ isotope yRow,
               ∃ k row, index isotope ns = Some k ∧ rows !! k = Some row ∧
                        Forall2 (λ c y, row !! c = Some y)
                                (columns axis timePoints) yRow)
            requested yVals.
Proof.
  intros Hx Hy Hrows Hwide Hns Htp Hon Hreq Hstored.
  destruct (_getXSlice_run xUnits timePoints axis (World m l) Hx)
    as (xVals & Hslice & Hlen).
  destruct (_getIsoID_run requested ns (World m l) Hns Hreq)
    as (rowIndices & Hiso & Hidx).
  { eapply Forall_impl; [exact Hstored|]. intros x (k & Hk & _). by exists k. }
  assert (_checkTimePoints xUnits timePoints (World m l) = (Return [], World m l))
    as Hcheck.
  { apply (time_check_passes _ _ (Arr1 axis)); [done|].
    intros t Ht. by apply bool_decide_eq_true_2, Hon. }
  unfold getValues.
  erewrite bind_Return; [|by rewrite (bind_Return _ _ _ _ _ Hcheck)].
  erewrite bind_Return; [|reflexivity]. simpl.
  erewrite bind_Return; [|by rewrite Hns; destruct requested].
  rewrite (bind_Return _ _ _ _ _ Hslice).
  rewrite (bind_Return _ _ _ _ _ Hiso).
  erewrite bind_Return; [|reflexivity]. simpl.
  erewrite bind_Return; [|by unfold lift, subscript; rewrite Hy]. simpl.
  destruct (Nat.eqb_spec (length rows) 1) as [|_]; [done|]. simpl.
  assert (columns axis timePoints ≠ []) as Hcols.
  { destruct timePoints as [|t ts]; [done|].
    apply (columns_nonempty _ _ t); [by left|apply Hon; by left]. }
  pose proof (columns_bound axis timePoints) as Hbound.
  revert Hcols Hbound Hlen. generalize (columns axis timePoints).
  intros [|c cs] Hcols Hbound Hlen; [done|]. clear Hcols.
  assert (Forall (λ rowId, rowId < length rows) rowIndices) as Hin.
  { eapply Forall2_Forall_r; [exact Hidx|].
    eapply Forall_impl; [exact Hstored|].
    intros x (k & Hk & Hlt) y Hy'. congruence. }
  edestruct (comprehension_Forall2
               (λ rowId : nat,
                  match rows !! rowId with
                  | Some row =>
                      match take_list row (c :: cs) with
                      | Return src => broadcast_row (length xVals) src
                      | Raise e => Raise e
                      end
                  | None => Raise IndexError
                  end)
               (λ rowId yRow, ∃ row, rows !! rowId = Some row ∧
                                     Forall2 (λ c y, row !! c = Some y) (c :: cs) yRow)
               rowIndices) as (yVals & Hrun & HR).
  { eapply Forall_impl; [exact Hin|]. intros k Hk; simpl in Hk.
    destruct (lookup_lt_is_Some_2 rows k Hk) as [row Hrow].
    destruct (take_list_Return row (c :: cs)) as (src & Hsrc & Hall).
    { rewrite (proj1 (Forall_lookup _ _) Hwide _ _ Hrow). exact Hbound. }
    exists src. rewrite Hrow, Hsrc. split; [|eauto].
    unfold broadcast_row. rewrite decide_True; [done|].
    rewrite Hlen. symmetry. by eapply Forall2_length. }
  exists yVals. split.
  - erewrite bind_Return; [done|]. unfold lift. by rewrite Hrun.
  - eapply Forall2_trans; [|exact Hidx|exact HR].
    intros isotope k yRow Hk (row & Hrow & Hall). by exists k, row.
Qed.

End DepletedMaterial_spec.

(** * Properties of [DetectorReader] *)

Section DetectorReader_spec.
Import py numpy detector.
Context {T : Type} (float : string → option T).
Local Arguments String.append !_ _ / : simpl nomatch.

Local Abbreviation parse_data := (detector.parse_data float).
Local Abbreviation _addDetector := (detector._addDetector float).
Local Abbreviation read_chunk := (detector.read_chunk float).
Local Abbreviation _read := (detector._read float).

Implicit Types (r : DetectorReader T) (w : world (DetectorReader T))
  (l : list (level * string)) (d : Detector T) (data : ndarray T)
  (ds : gmap string (Detector T)).

Lemma but_last_app (base : string) (c : ascii) :
  but_last (base +:+ String c "") = base.
Proof.
  induction base as [|a base IH]; [done|].
  simpl. rewrite IH. by destruct base.
Qed.

Lemma last_char_app (base : string) (c : ascii) :
  last_char (base +:+ String c "") = Return (String c "").
Proof.
  induction base as [|a base IH]; [done|].
  simpl. rewrite IH. by destruct base.
Qed.

(** ** [_addDetector] *)

Lemma _addDetector_Raise chunk detName binType e w :
  parse_data chunk binType = Raise e →
  _addDetector chunk detName binType w = (Raise e, w).
Proof. intros Hp. unfold detector._addDetector. erewrite bind_Raise; [done|]. by rewrite Hp. Qed.

(** A parsed chunk becomes the tally array of a new detector, or a grid
    of the detector that already has the name. *)
Lemma _addDetector_Return chunk detName binType data r l :
  parse_data chunk binType = Return data →
  _addDetector chunk detName binType (World r l)
  = (Return tt,
     match detectors r !! detName with
     | None =>
         World (set_detectors
                  (<[detName := addTallyData data (Detector__init__ detName)]>
                     (detectors r)) r)
               (l ++ [(DEBUG, "Adding detector " +:+ detName)])
     | Some d =>
         World (set_detectors
                  (<[detName := set_grid binType data d]> (detectors r)) r)
               (l ++ [(DEBUG, "Added bin data " +:+ default "None" binType
                              +:+ " to detector " +:+ detName)])
     end).
Proof.
  intros Hp. unfold detector._addDetector.
  erewrite bind_Return; [|by rewrite Hp].
  erewrite bind_Return; [|reflexivity]. simpl.
  by destruct (detectors r !! detName).
Qed.

(** ** Tallies are never replaced *)

Lemma keeps_tallies_refl ds : keeps_tallies ds ds.
Proof. intros n d Hn. eauto. Qed.

Lemma keeps_tallies_trans ds1 ds2 ds3 :
  keeps_tallies ds1 ds2 → keeps_tallies ds2 ds3 → keeps_tallies ds1 ds3.
Proof.
  intros H12 H23 n d Hn.
  destruct (H12 n d Hn) as (d2 & Hd2 & Hname2 & Ht2).
  destruct (H23 n d2 Hd2) as (d3 & Hd3 & Hname3 & Ht3).
  exists d3. split; [done|]. split; congruence.
Qed.

Lemma _addDetector_keeps chunk detName binType w :
  keeps_tallies (detectors (self w))
                (detectors (self (_addDetector chunk detName binType w).2)).
Proof.
  destruct w as [r l].
  destruct (parse_data chunk binType) as [data|e] eqn:Hp.
  - rewrite (_addDetector_Return _ _ _ _ _ _ Hp). simpl.
    intros n d Hn. destruct (decide (n = detName)) as [->|Hne].
    + rewrite Hn. simpl. rewrite lookup_insert_eq. eauto.
    + destruct (detectors r !! detName); simpl;
        rewrite lookup_insert_ne by done; eauto.
  - rewrite (_addDetector_Raise _ _ _ _ _ Hp). apply keeps_tallies_refl.
Qed.

Lemma read_chunk_keeps chunk w :
  keeps_tallies (detectors (self w)) (detectors (self (read_chunk chunk w).2)).
Proof.
  destruct chunk as [|first chunk]; [apply keeps_tallies_refl|].
  unfold detector.read_chunk.
  generalize (slice_from 3 (first_field first)). intros detString. cbv zeta.
  erewrite bind_Return; [|reflexivity].
  destruct (bool_decide _).
  - destruct (last_char detString) as [c|e] eqn:Hc.
    + erewrite bind_Return; [|reflexivity].
      apply _addDetector_keeps.
    + erewrite bind_Raise; [|reflexivity].
      apply keeps_tallies_refl.
  - erewrite bind_Return; [|reflexivity].
    erewrite bind_Return; [|reflexivity].
    destruct (_ || _); [apply _addDetector_keeps|apply keeps_tallies_refl].
Qed.

Lemma for_each_read_chunk_keeps chunks w :
  keeps_tallies (detectors (self w))
                (detectors (self (for_each read_chunk chunks w).2)).
Proof.
  revert w. induction chunks as [|chunk chunks IH]; intros w.
  - apply keeps_tallies_refl.
  - simpl. pose proof (read_chunk_keeps chunk w) as Hstep.
    unfold mbind, M_bind, bind.
    destruct (read_chunk chunk w) as [[[]|e] w']; simpl in *; [|done].
    eapply keeps_tallies_trans; [exact Hstep|apply IH].
Qed.

(** Reading any chunks, to the end or up to an exception, leaves every
    detector that exists in place with its tally array. *)
Lemma _read_keeps chunks w :
  keeps_tallies (detectors (self w)) (detectors (self (_read chunks w).2)).
Proof.
  unfold detector._read.
  erewrite bind_Return; [|reflexivity].
  erewrite bind_Return; [|reflexivity].
  pose proof (for_each_read_chunk_keeps chunks
                (World (self w) (log w ++ [(INFO, "Preparing to read " +:+ filePath (self w))])))
    as Hloop.
  unfold mbind, M_bind, bind.
  match goal with |- context [for_each _ chunks ?w0] =>
    change w0 with (World (self w) (log w ++ [(INFO, "Preparing to read " +:+ filePath (self w))]))
  end.
  destruct (for_each _ chunks _) as [[[]|e] w']; simpl in *; done.
Qed.

Lemma for_each_cons_keeps chunk chunks w :
  keeps_tallies (detectors (self (read_chunk chunk w).2))
                (detectors (self (for_each read_chunk (chunk :: chunks) w).2)).
Proof.
  simpl. unfold mbind, M_bind, bind.
  destruct (read_chunk chunk w) as [[[]|e] w']; simpl.
  - apply for_each_read_chunk_keeps.
  - apply keeps_tallies_refl.
Qed.

(** The detectors [_read] leaves are those its loop leaves. *)
Lemma _read_detectors chunks r l :
  self (_read chunks (World r l)).2
  = self (for_each read_chunk chunks
            (World r (l ++ [(INFO, "Preparing to read " +:+ filePath r)]))).2.
Proof.
  unfold detector._read.
  erewrite bind_Return; [|reflexivity].
  erewrite bind_Return; [|reflexivity].
  unfold mbind, M_bind, bind. cbn [self log].
  by destruct (for_each _ chunks _) as [[[]|e] w'].
Qed.

(** ** How a chunk is classified *)

Lemma read_chunk_grid first body (base : string) (c : ascii) r l :
  slice_from 3 (first_field first) = base +:+ String c "" →
  is_Some (detectors r !! base) →
  read_chunk (first :: body) (World r l)
  = _addDetector body base (Some (String c "")) (World r l).
Proof.
  intros Hname Hbase. unfold detector.read_chunk. rewrite Hname. cbv zeta.
  erewrite bind_Return; [|reflexivity].
  rewrite but_last_app. cbn [self].
  rewrite bool_decide_eq_true_2 by done.
  erewrite bind_Return; [done|]. unfold lift. by rewrite last_char_app.
Qed.

Lemma read_chunk_tally first body (detName : string) r l :
  slice_from 3 (first_field first) = detName →
  detectors r !! but_last detName = None →
  detName ∈ settings_names r ∨ _loadAll r = true →
  read_chunk (first :: body) (World r l)
  = _addDetector body detName None (World r l).
Proof.
  intros Hname Hnone Hreq. unfold detector.read_chunk. rewrite Hname. cbv zeta.
  erewrite bind_Return; [|reflexivity]. cbn [self].
  rewrite bool_decide_eq_false_2 by (rewrite Hnone; by intros [? ?]).
  erewrite bind_Return; [|reflexivity].
  erewrite bind_Return; [|reflexivity]. cbn [self].
  destruct Hreq as [Hin| ->].
  - by rewrite bool_decide_eq_true_2.
  - by rewrite orb_true_r.
Qed.

(** C3, as amended.  The first chunk seen for a name [base], with no
    detector under that name or under the name less its last character,
    creates the detector and sets its tally array.  Whatever chunks are read after it,
    the detector keeps that array: it is the tally array [_read] leaves,
    whether it reads the file to the end or stops at an exception.  A
    later chunk named [base] followed by one character [c] is read
    without error, stores its data as [grids[c]] of that detector, leaves
    its tally array and every other detector as they were, and adds no
    detector. *)
Theorem tally_set_once_grids_attached
    (r : DetectorReader T) l
    (first1 : string) (body1 : list string) (data1 : ndarray T)
    (later : list (list string))
    (first2 : string) (body2 : list string) (data2 : ndarray T)
    (base : string) (c : ascii) :
  slice_from 3 (first_field first1) = base →
  detectors r !! but_last base = None →
  detectors r !! base = None →
  base ∈ settings_names r ∨ _loadAll r = true →
  parse_data body1 None = Return data1 →
  slice_from 3 (first_field first2) = base +:+ String c "" →
  parse_data body2 (Some (String c "")) = Return data2 →
  let w1 := (read_chunk (first1 :: body1) (World r l)).2 in
  let w2 := (for_each read_chunk later w1).2 in
  let w3 := (read_chunk (first2 :: body2) w2).2 in
  detectors (self w1)
  = <[base := {| name := base; tallies := Some data1; grids := ∅ |}]> (detectors r) ∧
  (∀ rest, ∃ d,
     detectors (self (_read ((first1 :: body1) :: later ++ (first2 :: body2) :: rest)
                        (World r l)).2) !! base = Some d ∧
     tallies d = Some data1) ∧
  ∃ d,
    detectors (self w2) !! base = Some d ∧
    tallies d = Some data1 ∧
    (read_chunk (first2 :: body2) w2).1 = Return tt ∧
    detectors (self w3)
    = <[base := {| name := name d; tallies := Some data1;
                   grids := <[Some (String c "") := data2]> (grids d) |}]>
        (detectors (self w2)) ∧
    dom (detectors (self w3)) = dom (detectors (self w2)).
Proof.
  intros Hname1 Hprefix Hnew Hreq Hdata1 Hname2 Hdata2 w1 w2 w3.
  assert (∀ l0, detectors (self (read_chunk (first1 :: body1) (World r l0)).2)
                = <[base := {| name := base; tallies := Some data1; grids := ∅ |}]>
                    (detectors r)) as Hfirst.
  { intros l0. rewrite (read_chunk_tally _ _ _ _ _ Hname1 Hprefix Hreq).
    rewrite (_addDetector_Return _ _ _ _ _ _ Hdata1). by rewrite Hnew. }
  pose proof (Hfirst l) as Hw1. fold w1 in Hw1.
  split; [exact Hw1|]. split.
  { intros rest. rewrite _read_detectors.
    destruct (for_each_cons_keeps (first1 :: body1)
                (later ++ (first2 :: body2) :: rest)
                (World r (l ++ [(INFO, "Preparing to read " +:+ filePath r)]))
                base {| name := base; tallies := Some data1; grids := ∅ |})
      as (d & Hd & _ & Htally).
    - rewrite Hfirst. apply lookup_insert_eq.
    - exists d. split; [exact Hd|exact Htally]. }
  destruct (for_each_read_chunk_keeps later w1 base
              {| name := base; tallies := Some data1; grids := ∅ |})
    as (d & Hd & _ & Htally).
  { rewrite Hw1. apply lookup_insert_eq. }
  fold w2 in Hd. exists d. split; [exact Hd|]. split; [exact Htally|].
  unfold w3. destruct w2 as [r2 l2]. simpl in Hd.
  rewrite (read_chunk_grid _ _ _ _ _ _ Hname2) by (by rewrite Hd).
  rewrite (_addDetector_Return _ _ _ _ _ _ Hdata2). rewrite Hd. simpl.
  unfold set_grid. rewrite Htally. split; [done|]. split; [done|].
  apply set_eq. intros n. rewrite !elem_of_dom, lookup_insert.
  case_decide; [subst n; rewrite Hd; split; eauto|done].
Qed.

(** C8.  When the number of detector-start lines counted by the precheck
    differs from the number of detectors in the mapping, [_postcheck]
    reports the mismatch at error level and returns normally; the
    reader, and so every detector in its mapping, is unchanged. *)
Theorem postcheck_reports_mismatch (r : DetectorReader T) l :
  detCount r ≠ size (detectors r) →
  _postcheck (World r l)
  = (Return tt,
     World r (l ++ [(ERROR,
                     "Did not parse expected number of detectors in file"
                     +:+ newline +:+ filePath r)])).
Proof.
  intros Hne. unfold _postcheck.
  erewrite bind_Return; [|reflexivity].
  erewrite bind_Return; [|reflexivity]. cbn [self].
  rewrite bool_decide_eq_true_2 by done.
  by erewrite bind_Return; [|reflexivity].
Qed.

End DetectorReader_spec.

(** * The slicing contract of [getValues] *)

Section getValues_contract.
Import py numpy materials examples.

Ltac invert_Forall2 :=
  repeat match goal with
    | H : Forall2 _ (_ :: _) _ |- _ =>
        apply Forall2_cons_inv_l in H as (? & ? & ? & H & ->)
    | H : Forall2 _ [] _ |- _ => apply Forall2_nil_inv_l in H as ->
    end.

(** C1, as amended.  For a material with isotope names
    ["Xe135"; "Sm149"; "total"], time axis [0; 10; 20] and a three by three
    [adens] array, [getValues("days", "adens", [0, 20], ["Xe135", "total"])]
    returns the two by two array of rows 0, 2 and columns 0, 2 of
    [adens].  In general, for a stored two-dimensional category whose
    number of rows is not one and whose rows are as long as a
    one-dimensional x-axis, requested time points that are all on the axis
    and requested names that are all stored, the result has one row per
    requested name, in request order, and one column per axis position
    whose value is among the requested points, in axis order: entry
    [(i, j)] is the stored entry at the row of the [i]-th name and the
    [j]-th selected column.  The number of columns is the number of
    requested time points when neither the request nor the axis repeats a
    value. *)
Theorem getValues_rows_and_columns :
  (∀ (m : DepletedMaterial Z) l (a00 a01 a02 a10 a11 a12 a20 a21 a22 : Z),
     names m = Some ["Xe135"; "Sm149"; "total"] →
     days m = Some (Arr1 [0; 10; 20]%Z) →
     data m !! "adens"
     = Some (Arr2 [[a00; a01; a02]; [a10; a11; a12]; [a20; a21; a22]]) →
     getValues "days" "adens" (Some [0; 20]%Z) (ListArg ["Xe135"; "total"])
               (World m l)
     = (Return (Arr2 [[a00; a02]; [a20; a22]]), World m l)) ∧
  (∀ (T : Type) (HT : Number T) (xUnits yUnits : string) (timePoints : list T)
     (requested ns : list string) (axis : list T) (rows : list (list T))
     (m : DepletedMaterial T) l,
     (x_axis xUnits (World m l)).1 = Return (Some (Arr1 axis)) →
     data m !! yUnits = Some (Arr2 rows) →
     length rows ≠ 1 →
     Forall (λ row, length row = length axis) rows →
     names m = Some ns →
     timePoints ≠ [] →
     (∀ time, time ∈ timePoints → time ∈ axis) →
     requested ≠ [] →
     Forall (λ isotope, ∃ k, index isotope ns = Some k ∧ k < length rows)
            requested →
     ∃ yVals,
       getValues xUnits yUnits (Some timePoints) (ListArg requested) (World m l)
       = (Return (Arr2 yVals), World m l) ∧
       length yVals = length requested ∧
       Forall (λ yRow, length yRow = length (columns axis timePoints)) yVals ∧
       (NoDup timePoints → NoDup axis →
        Forall (λ yRow, length yRow = length timePoints) yVals) ∧
       Forall2 (λ isotope yRow,
                  ∃ k row, index isotope ns = Some k ∧ rows !! k = Some row ∧
                           Forall2 (λ c y, row !! c = Some y)
                                   (columns axis timePoints) yRow)
               requested yVals).
Proof.
  split.
  - intros m l a00 a01 a02 a10 a11 a12 a20 a21 a22 Hns Hdays Hadens.
    destruct (getValues_two_dimensional
                "days" "adens" [0; 20]%Z ["Xe135"; "total"]
                ["Xe135"; "Sm149"; "total"] [0; 10; 20]%Z
                [[a00; a01; a02]; [a10; a11; a12]; [a20; a21; a22]] m l)
      as (yVals & -> & HR); try done.
    + unfold x_axis. simpl. by rewrite Hdays.
    + by repeat constructor.
    + intros t Ht. apply list_elem_of_In in Ht. apply list_elem_of_In.
      simpl in *. tauto.
    + repeat constructor; eexists; (split; [reflexivity|simpl; lia]).
    + change (columns [0; 10; 20]%Z [0; 20]%Z) with [0; 2] in HR.
      invert_Forall2.
      repeat match goal with
             | H : ∃ _, _ |- _ => destruct H as (? & H)
             | H : _ ∧ _ |- _ => destruct H as (? & H)
             end.
      invert_Forall2. by repeat (simplify_eq/=).
  - intros T HT xUnits yUnits timePoints requested ns axis rows m l
           Hx Hy Hrows Hwide Hns Htp Hon Hreq Hstored.
    destruct (getValues_two_dimensional xUnits yUnits timePoints requested ns
                axis rows m l Hx Hy Hrows Hwide Hns Htp Hon Hreq Hstored)
      as (yVals & Hrun & HR).
    exists yVals. split; [exact Hrun|].
    assert (Forall (λ yRow, length yRow = length (columns axis timePoints)) yVals)
      as Hcols.
    { eapply Forall2_Forall_r; [exact HR|].
      apply Forall_forall. intros isotope _ yRow (k & row & _ & _ & Hall).
      symmetry. by eapply Forall2_length. }
    split; [symmetry; by eapply Forall2_length|].
    split; [exact Hcols|]. split; [|exact HR].
    intros Hnd1 Hnd2. by rewrite <- (columns_length_NoDup axis timePoints).
Qed.
End getValues_contract.

(** * The code on concrete inputs *)

Section on_concrete_inputs.
Import py numpy examples.

Local Abbreviation three_by_three :=
  (Arr2 [[1; 2; 3]; [4; 5; 6]; [7; 8; 9]]%Z).
Local Abbreviation isotopes := (["Xe135"; "Sm149"; "total"]).

(** ** [getValues] *)

(** C1, as stated, fails.  A request that repeats a time point gets one
    column for it, not two: three points are requested and the result has
    two columns.  So the result is not always shaped by the number of
    requested time points. *)
Lemma getValues_shape_counterexample :
  (materials.getValues "days" "adens" (Some [0; 0; 20]%Z)
     (materials.ListArg ["Xe135"; "total"])
     (World (fuel three_by_three (Some isotopes)) [])).1
  = Return (Arr2 [[1; 3]; [7; 9]]%Z) ∧
  ¬ (∀ (m : materials.DepletedMaterial Z) (yUnits : string)
       (timePoints : list Z) (requested : list string) (rows : list (list Z))
       (out : ndarray Z),
       materials.data m !! yUnits = Some (Arr2 rows) →
       (materials.getValues "days" yUnits (Some timePoints)
          (materials.ListArg requested) (World m [])).1 = Return out →
       ∃ yVals, out = Arr2 yVals ∧ length yVals = length requested ∧
                Forall (λ yRow, length yRow = length timePoints) yVals).
Proof.
  split; [by vm_compute|].
  intros Hclaim.
  destruct (Hclaim (fuel three_by_three (Some isotopes)) "adens" [0; 0; 20]%Z
              ["Xe135"; "total"] [[1; 2; 3]; [4; 5; 6]; [7; 8; 9]]%Z
              (Arr2 [[1; 3]; [7; 9]]%Z))
    as (yVals & [= <-] & _ & Hcols); [by vm_compute..|].
  by inversion Hcols.
Qed.

(** C1, as amended, on the material of the example, with the request
    [[0, 20]] for ["Xe135"] and ["total"]. *)
Lemma getValues_rows_and_columns_witness :
  ∃ yVals,
    materials.getValues "days" "adens" (Some [0; 20]%Z)
      (materials.ListArg ["Xe135"; "total"])
      (World (fuel three_by_three (Some isotopes)) [])
    = (Return (Arr2 yVals), World (fuel three_by_three (Some isotopes)) []) ∧
    length yVals = 2 ∧
    Forall (λ yRow, length yRow = 2) yVals.
Proof.
  destruct getValues_rows_and_columns as [_ Hgen].
  destruct (Hgen Z int_Number "days" "adens" [0; 20]%Z ["Xe135"; "total"]
              isotopes [0; 10; 20]%Z [[1; 2; 3]; [4; 5; 6]; [7; 8; 9]]%Z
              (fuel three_by_three (Some isotopes)) [])
    as (yVals & Hrun & Hlen & Hcols & _ & _).
  - reflexivity.
  - reflexivity.
  - simpl. lia.
  - repeat constructor.
  - reflexivity.
  - discriminate.
  - intros time Ht. apply list_elem_of_In in Ht. apply list_elem_of_In.
    simpl in *. tauto.
  - discriminate.
  - repeat constructor; eexists; (split; [reflexivity|simpl; lia]).
  - exists yVals. split; [exact Hrun|]. split; [exact Hlen|exact Hcols].
Defined.

(** C9 at a single-isotope material: the [adens] array has one row, and
    [getValues] indexes it by row with the column positions.  Asking
    for days 0 and 20 raises [IndexError]; asking for day 0, or for
    every day, gives back the whole one by three array, which is
    two-dimensional. *)
Lemma single_row_indexed_by_row :
  let m := fuel (Arr2 [[1; 2; 3]]%Z) (Some ["Xe135"]) in
  (materials.getValues "days" "adens" (Some [0; 20]%Z)
     (materials.ListArg ["Xe135"]) (World m [])).1 = Raise IndexError ∧
  (materials.getValues "days" "adens" (Some [0]%Z)
     (materials.ListArg ["Xe135"]) (World m [])).1
  = Return (Arr2 [[1; 2; 3]]%Z) ∧
  (materials.getValues "days" "adens" None
     materials.NoneArg (World m [])).1
  = Return (Arr2 [[1; 2; 3]]%Z).
Proof. by vm_compute. Qed.

(** C4 on the axis [0; 10; 20] with the request [[0, 15, 20, 17]]: the
    message lists 15 and 17. *)
Lemma getValues_missing_time_points_witness :
  let m := fuel three_by_three (Some isotopes) in
  let msg := "The following times were not present in file demo_dep.m"
             +:+ newline +:+ "15, 17" in
  materials.getValues "days" "adens" (Some [0; 15; 20; 17]%Z)
    (materials.ListArg ["Xe135"]) (World m [])
  = (Raise (KeyError msg), World m []) ∧
  contains "15" msg = true ∧ contains "17" msg = true.
Proof.
  intros m msg.
  destruct (getValues_missing_time_points "days" "adens" [0; 15; 20; 17]%Z
              (materials.ListArg ["Xe135"]) (Arr1 [0; 10; 20]%Z) m [])
    as [Hrun Hall].
  - reflexivity.
  - exists 15%Z. split; [|reflexivity].
    apply list_elem_of_In. simpl. tauto.
  - split; [exact Hrun|]. split.
    + apply (Hall 15%Z); [|reflexivity]. apply list_elem_of_In. simpl. tauto.
    + apply (Hall 17%Z); [|reflexivity]. apply list_elem_of_In. simpl. tauto.
Defined.

(** C5, as stated, fails: with no isotope names loaded and a non-empty
    list of names, a request for a time point that is not on the axis
    raises the [KeyError] of the time-point check, not an
    [AttributeError]. *)
Lemma getValues_names_not_loaded_counterexample :
  (materials.getValues "days" "adens" (Some [15]%Z)
     (materials.ListArg ["Xe135"]) (World (fuel three_by_three None) [])).1
  = Raise (KeyError ("The following times were not present in file demo_dep.m"
                     +:+ newline +:+ "15")) ∧
  ¬ (∀ (m : materials.DepletedMaterial Z) (xUnits yUnits : string)
       (tp : option (list Z)) (requested : list string),
       requested ≠ [] →
       materials.names m = None →
       ∃ msg, (materials.getValues xUnits yUnits tp
                 (materials.ListArg requested) (World m [])).1
              = Raise (AttributeError msg)).
Proof.
  split; [by vm_compute|].
  intros Hclaim.
  destruct (Hclaim (fuel three_by_three None) "days" "adens" (Some [15]%Z)
              ["Xe135"]) as (msg & Hmsg); [done..|].
  vm_compute in Hmsg. discriminate.
Qed.

(** C5, as amended, on a material without isotope names, for time points
    that are on the axis and for a category that is not even stored. *)
Lemma getValues_names_not_loaded_witness :
  let m := fuel three_by_three None in
  materials.getValues "days" "mdens" (Some [0; 20]%Z)
    (materials.ListArg ["Xe135"]) (World m [])
  = (Raise (AttributeError "Isotope names not stored on DepletedMaterial fuel."),
     World m []).
Proof.
  intros m.
  apply (getValues_names_not_loaded "days" "mdens" (Some [0; 20]%Z)
           (materials.ListArg ["Xe135"]) m []).
  - reflexivity.
  - reflexivity.
  - exists (Arr1 [0; 10; 20]%Z). split; [reflexivity|].
    intros time Ht. apply list_elem_of_In in Ht. simpl in Ht.
    destruct Ht as [<-|[<-|[]]]; reflexivity.
Defined.

(** ** [HomogUniv] *)

Local Abbreviation universe := (containers.__init__ (V:=Z) "0" 0 0 0).
Local Abbreviation with_unc :=
  (containers.assign containers.InfUnc {[ "inf_kinf" := 7%Z ]} universe).

(** C2 on a universe whose uncertainty dictionary holds 7 for
    [INF_KINF] and whose expected-value dictionaries are empty. *)
Lemma get_uncertainty_witness :
  containers.get lower "INF_KINF" (containers.Bool true) (World with_unc [])
  = (Return (containers.Tuple (Some 7%Z) (Some 7%Z)), World with_unc []).
Proof.
  destruct (get_uncertainty_reads_uncertainty_twice lower "INF_KINF" 7%Z
              containers.InfUnc with_unc []) as [_ Hget].
  - reflexivity.
  - reflexivity.
  - apply Hget; reflexivity.
Defined.

(** C6 on the name [KEFF], which is of neither family. *)
Lemma unclassified_name_witness :
  let w' := World universe [(ERROR, "Neither inf, nor b1 in the string")] in
  containers.set lower "KEFF" 1%Z (containers.Bool false) (World universe [])
  = (Raise TypeError, w') ∧
  containers.get lower "KEFF" (containers.Bool false) (World universe [])
  = (Raise (AttributeError "'NoneType' object has no attribute 'get'"), w').
Proof.
  apply (unclassified_name_aborts lower "KEFF" 1%Z false (World universe []));
    reflexivity.
Defined.

(** C7 on [INF_KINF], set to 3 and then, under another spelling, to 4. *)
Lemma set_get_roundtrip_witness :
  ∃ w1,
    containers.set lower "INF_KINF" 3%Z (containers.Bool false) (World universe [])
    = (Return tt, w1) ∧
    containers.get lower "INF_KINF" (containers.Bool false) w1
    = (Return (containers.Value (Some 3%Z)), w1) ∧
    ∃ w2,
      containers.set lower "inf_Kinf" 4%Z (containers.Bool false) w1
      = (Return tt, w2) ∧
      log w2 = log w1 ++ [(WARNING, "The variable will be overwritten")] ∧
      containers.get lower "inf_Kinf" (containers.Bool false) w2
      = (Return (containers.Value (Some 4%Z)), w2).
Proof.
  destruct (set_get_roundtrip lower "INF_KINF" 3%Z false (World universe []))
    as (w1 & Hset & Hget & Hagain); [reflexivity|].
  exists w1. split; [exact Hset|]. split; [exact Hget|].
  apply (Hagain "inf_Kinf" 4%Z). reflexivity.
Defined.

(** C10 on a universe in which nothing was set. *)
Lemma get_unset_witness :
  containers.get lower "B1_NSF" (containers.Bool false) (World universe [])
  = (Return (containers.Value None), World universe []).
Proof.
  apply (get_unset_returns_None lower "B1_NSF" containers.B1Exp
           (World universe [])); reflexivity.
Defined.

(** ** [DetectorReader] *)

(** C3, as stated, fails for a name that extends the name of a stored
    detector by one character.  With [D1] stored, the first chunk seen
    for [D12] creates no detector: its data becomes [grids["2"]] of [D1].
    The chunk [D12E] that follows then finds no [D12] to attach to and
    creates a detector of its own, named [D12E]; no [grids["E"]] is
    populated.  So the first chunk seen for a name does not always set a
    tally array. *)
Lemma tally_set_once_counterexample :
  let run := for_each (detector.read_chunk float_int)
               [ ["DETD1 = ["; "1 1 1 1 1 1 1 1 1 1 5 2"];
                 ["DETD12 = ["; "1 1 1 1 1 1 1 1 1 1 9 4"];
                 ["DETD12E = ["; "1 1 1 1 1 1 1 1 1 1 8 6"] ]
               (World (detector.__init__ "demo_det0.m" []) []) in
  run.1 = Return tt ∧
  detector.detectors (self run.2) !! "D12" = None ∧
  detector.detectors (self run.2) !! "D1"
  = Some {| detector.name := "D1";
            detector.tallies :=
              Some (Arr2 [[1; 1; 1; 1; 1; 1; 1; 1; 1; 1; 5; 2]]%Z);
            detector.grids :=
              {[ Some "2" := Arr2 [[1; 1; 1; 1; 1; 1; 1; 1; 1; 1; 9; 4]]%Z ]} |} ∧
  detector.detectors (self run.2) !! "D12E"
  = Some {| detector.name := "D12E";
            detector.tallies :=
              Some (Arr2 [[1; 1; 1; 1; 1; 1; 1; 1; 1; 1; 8; 6]]%Z);
            detector.grids := ∅ |} ∧
  ¬ (∀ (r : detector.DetectorReader Z) (first1 : string) (body1 : list string)
       (data1 : ndarray Z) (base : string),
       detector.slice_from 3 (detector.first_field first1) = base →
       detector.detectors r !! base = None →
       base ∈ detector.settings_names r ∨ detector._loadAll r = true →
       detector.parse_data float_int body1 None = Return data1 →
       detector.detectors
         (self (detector.read_chunk float_int (first1 :: body1) (World r [])).2)
       !! base
       = Some {| detector.name := base; detector.tallies := Some data1;
                 detector.grids := ∅ |}).
Proof.
  intros run.
  split; [by vm_compute|]. split; [by vm_compute|].
  split; [by vm_compute|]. split; [by vm_compute|].
  intros Hclaim.
  specialize (Hclaim
                (self (detector.read_chunk float_int
                         ["DETD1 = ["; "1 1 1 1 1 1 1 1 1 1 5 2"]
                         (World (detector.__init__ "demo_det0.m" []) [])).2)
                "DETD12 = [" ["1 1 1 1 1 1 1 1 1 1 9 4"]
                (Arr2 [[1; 1; 1; 1; 1; 1; 1; 1; 1; 1; 9; 4]]%Z) "D12"
                eq_refl eq_refl (or_intror eq_refl) eq_refl).
  vm_compute in Hclaim. discriminate.
Qed.

(** C3, as amended, on a reader in all-names mode: the tally chunk of [D1],
    then the chunk of [D2], then the energy grid [D1E]. *)
Lemma tally_set_once_witness :
  let tally := Arr2 [[1; 1; 1; 1; 1; 1; 1; 1; 1; 1; 5; 2];
                     [2; 1; 1; 1; 1; 1; 1; 1; 1; 1; 7; 3]]%Z in
  let grid := Arr2 [[0; 10; 5]; [10; 20; 15]]%Z in
  let w1 := (detector.read_chunk float_int
               ["DETD1 = ["; "1 1 1 1 1 1 1 1 1 1 5 2"; "2 1 1 1 1 1 1 1 1 1 7 3"]
               (World (detector.__init__ "demo_det0.m" []) [])).2 in
  let w2 := (for_each (detector.read_chunk float_int)
               [["DETD2 = ["; "1 1 1 1 1 1 1 1 1 1 9 4"]] w1).2 in
  let w3 := (detector.read_chunk float_int
               ["DETD1E = ["; "0 10 5"; "10 20 15"] w2).2 in
  (∃ d,
     detector.detectors
       (self (detector._read float_int
                [ ["DETD1 = ["; "1 1 1 1 1 1 1 1 1 1 5 2"; "2 1 1 1 1 1 1 1 1 1 7 3"];
                  ["DETD2 = ["; "1 1 1 1 1 1 1 1 1 1 9 4"];
                  ["DETD1E = ["; "0 10 5"; "10 20 15"] ]
                (World (detector.__init__ "demo_det0.m" []) [])).2) !! "D1"
     = Some d ∧
     detector.tallies d = Some tally) ∧
  ∃ d,
    detector.detectors (self w2) !! "D1" = Some d ∧
    detector.tallies d = Some tally ∧
    (detector.read_chunk float_int ["DETD1E = ["; "0 10 5"; "10 20 15"] w2).1
    = Return tt ∧
    detector.detectors (self w3)
    = <["D1" := {| detector.name := detector.name d;
                   detector.tallies := Some tally;
                   detector.grids := <[Some "E" := grid]> (detector.grids d) |}]>
        (detector.detectors (self w2)) ∧
    dom (detector.detectors (self w3)) = dom (detector.detectors (self w2)).
Proof.
  intros tally grid.
  edestruct (tally_set_once_grids_attached float_int
           (detector.__init__ "demo_det0.m" []) []
           "DETD1 = ["
           ["1 1 1 1 1 1 1 1 1 1 5 2"; "2 1 1 1 1 1 1 1 1 1 7 3"] tally
           [["DETD2 = ["; "1 1 1 1 1 1 1 1 1 1 9 4"]]
           "DETD1E = [" ["0 10 5"; "10 20 15"] grid
           "D1" "E"%char) as (_ & Hread & Hgrid);
    [reflexivity|reflexivity|reflexivity|by right|reflexivity|reflexivity
    |reflexivity|].
  split; [exact (Hread [])|exact Hgrid].
Defined.

(** C8 on the scan of a file with three detectors by a reader that was
    asked for two of them: three start lines were counted, two detectors
    were stored, and they are still there after the check. *)
Lemma postcheck_witness :
  detector.detCount (self filtered_scan) = 3 ∧
  size (detector.detectors (self filtered_scan)) = 2 ∧
  detector._postcheck filtered_scan
  = (Return tt,
     World (self filtered_scan)
           (log filtered_scan
            ++ [(ERROR, "Did not parse expected number of detectors in file"
                        +:+ newline +:+ "demo_det0.m")])).
Proof.
  split; [by vm_compute|]. split; [by vm_compute|].
  apply (postcheck_reports_mismatch (self filtered_scan) (log filtered_scan)).
  by vm_compute.
Defined.

End on_concrete_inputs.

(** * More on [HomogUniv]: what [set] touches *)

Section HomogUniv_frame.
Import py containers.
Context {V : Type} (conv : string → string).

Local Abbreviation set := (containers.set conv).
Local Abbreviation get := (containers.get conv).

Implicit Types (u : HomogUniv V) (w : world (HomogUniv V)) (v : V).

Lemma deref_assign_ne (r r' : dictref) (d : gmap string V) u :
  r' ≠ r → deref r' (assign r d u) = deref r' u.
Proof. by destruct r, r'. Qed.

(** A [set] that returns went through a dictionary of [_lookup]. *)
Lemma set_Return_inv (name : string) v (b : bool) w w1 :
  set name v (Bool b) w = (Return tt, w1) →
  ∃ r, (∀ w0, _lookup (conv name) b w0 = (Return (Some r), w0)) ∧
       self w1 = assign r (<[conv name := v]> (deref r (self w))) (self w).
Proof.
  intros Hset.
  destruct (contains "inf" (conv name) || contains "b1" (conv name)) eqn:Hc.
  - destruct (classified_lookup (V:=V) _ b Hc) as [r Hl]. exists r. split; [done|].
    rewrite (set_run conv _ _ _ _ _ (Hl w)) in Hset. by injection Hset as <-.
  - apply orb_false_iff in Hc as [Hi Hb].
    pose proof (_lookup_neither _ b w Hi Hb) as Hl.
    unfold containers.set, mbind, M_bind, bind in Hset; simpl in Hset.
    by rewrite Hl in Hset.
Qed.

Lemma get_outcome (name : string) (b : bool) w :
  (get name (Bool b) w).1
  = if contains "inf" (conv name) || contains "b1" (conv name)
    then
      let r := if contains "inf" (conv name)
               then (if b then InfUnc else InfExp)
               else (if b then B1Unc else B1Exp) in
      Return (if b then Tuple (deref r (self w) !! conv name)
                              (deref r (self w) !! conv name)
              else Value (deref r (self w) !! conv name))
    else Raise (AttributeError "'NoneType' object has no attribute 'get'").
Proof.
  destruct (contains "inf" (conv name)) eqn:Hi; simpl.
  - by rewrite (get_run conv _ _ _ _ (_lookup_inf _ b w Hi)).
  - destruct (contains "b1" (conv name)) eqn:Hb.
    + by rewrite (get_run conv _ _ _ _ (_lookup_b1 _ b w Hi Hb)).
    + pose proof (_lookup_neither _ b w Hi Hb) as Hl.
      unfold containers.get, mbind, M_bind, bind; simpl. by rewrite Hl.
Qed.

(** A [set] leaves every other key of every dictionary alone. *)
Lemma set_other_key (name k : string) v (b : bool) (r' : dictref) w w1 :
  set name v (Bool b) w = (Return tt, w1) →
  k ≠ conv name →
  deref r' (self w1) !! k = deref r' (self w) !! k.
Proof.
  intros (r & _ & ->)%set_Return_inv Hk.
  assert (r' = r ∨ r' ≠ r) as [->|Hne]
    by (destruct r', r; (by left) || (by right)).
  - rewrite deref_assign. by apply lookup_insert_ne.
  - by rewrite deref_assign_ne.
Qed.

(** X1.  A [set] that returns changes what [get] gives for the name and
    flag it was called with, and for nothing else: for every other
    normalised name, and for the same name under the other flag, [get]
    returns, or raises, what it did before. *)
Theorem set_leaves_other_slots (name name' : string) v (b b' : bool) w w1 :
  set name v (Bool b) w = (Return tt, w1) →
  conv name' ≠ conv name ∨ b' ≠ b →
  (get name' (Bool b') w1).1 = (get name' (Bool b') w).1.
Proof.
  intros (r & Hl & Hself)%set_Return_inv Hother.
  rewrite !get_outcome. destruct (_ || _); [|done]. cbv zeta.
  destruct (_lookup_Some (conv name) b w r) as [_ Hr]; [by rewrite Hl|].
  set (r' := if contains "inf" (conv name') then _ else _).
  assert (deref r' (self w1) !! conv name' = deref r' (self w) !! conv name')
    as ->; [|done].
  rewrite Hself.
  assert (r' = r ∨ r' ≠ r) as [Heq|Hne]
    by (generalize r'; intros x; destruct x, r; (by left) || (by right)).
  - rewrite Heq, deref_assign. apply lookup_insert_ne.
    intros Hsame. destruct Hother as [Hname|Hflag]; [by rewrite Hsame in Hname|].
    subst r r'. rewrite Hsame in Heq.
    destruct (contains "inf" (conv name')), b, b'; done.
  - by rewrite deref_assign_ne.
Qed.

(** X3.  A name whose normalised form contains "inf" is stored in the
    inf dictionaries whether or not it also contains "b1": [set] returns,
    the value is in [infExp] (in [infUnc] under [uncertainty=True]), and
    the two b1 dictionaries are untouched. *)
Theorem inf_takes_precedence (name : string) v (b : bool) w :
  contains "inf" (conv name) = true →
  ∃ w1, set name v (Bool b) w = (Return tt, w1) ∧
        (if b then infUnc (self w1) else infExp (self w1)) !! conv name = Some v ∧
        b1Exp (self w1) = b1Exp (self w) ∧
        b1Unc (self w1) = b1Unc (self w).
Proof.
  intros Hi. eexists. split; [apply (set_run conv _ _ _ _ _ (_lookup_inf _ b w Hi))|].
  destruct b; simpl; by rewrite lookup_insert_eq.
Qed.

(** X4.  An [uncertainty] argument that is not a [bool] is reported and
    makes both [set] and [get] raise before the name is classified: the
    universe is unchanged and the only message is the one about the
    flag, also for a name of neither family. *)
Theorem flag_checked_first (name : string) v w :
  let w' := World (self w)
                  (log w ++ [(ERROR, "Uncertainty must be a boolean variable")]) in
  set name v NotBool w = (Raise TypeError, w') ∧
  get name NotBool w = (Raise TypeError, w').
Proof. done. Qed.

(** ** Loading many variables *)

Lemma for_each_set_other_key (items : list (string * V)) (b : bool)
    (k : string) (r' : dictref) w w' :
  for_each (λ nv, set nv.1 nv.2 (Bool b)) items w = (Return tt, w') →
  Forall (λ nv, conv nv.1 ≠ k) items →
  deref r' (self w') !! k = deref r' (self w) !! k.
Proof.
  revert w. induction items as [|[n v] items IH]; intros w Hrun Hne.
  - by injection Hrun as <-.
  - inversion_clear Hne as [|?? Hn Hrest]. simpl in *.
    unfold mbind, M_bind, bind in Hrun.
    destruct (set n v (Bool b) w) as [[[]|e] w1] eqn:Hset; [|done].
    rewrite (IH w1 Hrun Hrest).
    by apply (set_other_key _ _ _ _ _ _ _ Hset).
Qed.

(** X2.  Loading variables whose normalised names are pairwise different
    and for which [get] so far returns [None] never warns: every [set]
    returns, the log is as before, and afterwards [get] returns for each
    name the value loaded for it. *)
Theorem set_many_roundtrip (items : list (string * V)) (b : bool) w :
  NoDup ((λ nv, conv nv.1) <$> items) →
  Forall (λ nv, (get nv.1 (Bool b) w).1
                = Return (if b then Tuple None None else Value None)) items →
  ∃ w',
    for_each (λ nv, set nv.1 nv.2 (Bool b)) items w = (Return tt, w') ∧
    log w' = log w ∧
    Forall (λ nv, (get nv.1 (Bool b) w').1
                  = Return (if b then Tuple (Some nv.2) (Some nv.2)
                            else Value (Some nv.2))) items.
Proof.
  revert w. induction items as [|[n v] items IH]; intros w Hnd Hfresh.
  - exists w. by repeat split.
  - apply NoDup_cons in Hnd as [Hn Hnd].
    inversion_clear Hfresh as [|?? Hget Hrest]. simpl in *.
    assert (Forall (λ nv : string * V, conv nv.1 ≠ conv n) items) as Hne.
    { apply Forall_forall. intros nv Hin Heq. apply Hn.
      rewrite <- Heq. by apply (list_elem_of_fmap_2 (λ nv, conv nv.1)). }
    rewrite get_outcome in Hget.
    destruct (contains "inf" (conv n) || contains "b1" (conv n)) eqn:Hc;
      [|done].
    destruct (classified_lookup (V:=V) _ b Hc) as [r Hl].
    destruct (_lookup_Some (conv n) b w r) as [_ Hr]; [by rewrite Hl|].
    simpl in Hget. rewrite <- Hr in Hget.
    assert (deref r (self w) !! conv n = None) as Hnone
      by (destruct b; by simplify_eq).
    pose proof (set_run conv n v b r w (Hl w)) as Hset.
    rewrite bool_decide_eq_false_2 in Hset
      by (rewrite Hnone; by intros [? ?]).
    set (w1 := World _ (log w)) in Hset.
    destruct (IH w1) as (w' & Hrun & Hlog & Hall); [done| |].
    { apply Forall_forall. intros nv Hin.
      rewrite <- (proj1 (Forall_forall _ _) Hrest nv Hin).
      rewrite !get_outcome. cbv zeta.
      by rewrite !(set_other_key _ _ _ _ _ _ _ Hset
                     (proj1 (Forall_forall _ _) Hne nv Hin)). }
    exists w'. unfold mbind, M_bind, bind. rewrite Hset.
    split; [done|]. split; [done|].
    constructor; [|done]. simpl.
    rewrite (get_run conv _ _ _ _ (Hl w')). simpl.
    rewrite (for_each_set_other_key _ _ (conv n) r _ _ Hrun)
      by (eapply Forall_impl; [exact Hne|]; by intros nv ? ?).
    simpl. rewrite deref_assign, lookup_insert_eq. by destruct b.
Qed.

End HomogUniv_frame.

(** * More on [getValues]: defaults, one-dimensional data, edge cases *)

Section getValues_more.
Import py numpy materials.
Context {T : Type} `{Number T}.

Implicit Types (m : DepletedMaterial T) (w : world (DepletedMaterial T))
  (l : list (level * string)) (timePoints : list T) (valid : ndarray T).

(** ** Helpers *)

Lemma comprehension_ext {A B} (f g : A → outcome B) xs :
  (∀ x, x ∈ xs → f x = g x) → comprehension f xs = comprehension g xs.
Proof.
  induction xs as [|x xs IH]; intros Hfg; [done|]. simpl.
  rewrite (Hfg x) by (by left). rewrite IH; [done|].
  intros y Hy. apply Hfg. by right.
Qed.

(** A comprehension whose element expression can only fail with [e]
    fails with [e] as soon as it fails on some element. *)
Lemma comprehension_Raise {A B} (f : A → outcome B) (e : exn) xs x :
  x ∈ xs → f x = Raise e →
  (∀ y e', f y = Raise e' → e' = e) →
  comprehension f xs = Raise e.
Proof.
  intros Hx Hfx Honly. induction xs as [|y xs IH]; [by apply elem_of_nil in Hx|].
  simpl. destruct (f y) as [b|e'] eqn:Hy.
  - apply elem_of_cons in Hx as [->|Hx]; [congruence|]. by rewrite IH.
  - by rewrite (Honly _ _ Hy).
Qed.

Lemma index_Some {A} `{EqDecision A} (x : A) (xs : list A) i :
  index x xs = Some i →
  xs !! i = Some x ∧ ∀ j, j < i → xs !! j ≠ Some x.
Proof.
  revert i. induction xs as [|y xs IH]; intros i; [done|]. simpl.
  destruct (decide (y = x)) as [->|Hne].
  - intros [= <-]. split; [done|]. intros j Hj. lia.
  - destruct (index x xs) as [k|] eqn:Hk; [|done]. intros [= <-].
    destruct (IH k eq_refl) as [Hlook Hmin]. split; [done|].
    intros [|j] Hj; simpl; [congruence|]. apply Hmin. lia.
Qed.

Lemma index_None {A} `{EqDecision A} (x : A) (xs : list A) :
  index x xs = None ↔ x ∉ xs.
Proof.
  induction xs as [|y xs IH]; simpl.
  - split; [intros _; apply not_elem_of_nil|done].
  - destruct (decide (y = x)) as [->|Hne].
    + split; [done|]. intros Hn. destruct Hn. by left.
    + rewrite not_elem_of_cons. destruct (index x xs); simpl.
      * split; [done|]. intros [_ Hn]. by apply IH in Hn.
      * split; [|done]. intros _. split; [done|]. by apply IH.
Qed.

Lemma _getXSlice_None xUnits (ax : option (ndarray T)) w :
  (x_axis xUnits w).1 = Return ax →
  _getXSlice xUnits None w = (Return (ax, None), w).
Proof.
  intros Hx. unfold _getXSlice.
  erewrite bind_Return; [done|].
  by rewrite (reads_only_run _ w (x_axis_reads xUnits)), Hx.
Qed.

Lemma _getIsoID_all isotopes (ns : list string) w :
  truthy isotopes = false → names (self w) = Some ns →
  _getIsoID isotopes w = (Return (seq 0 (length ns)), w).
Proof.
  intros Hf Hns. unfold _getIsoID.
  erewrite bind_Return; [|reflexivity]. simpl. by rewrite Hf, Hns.
Qed.

(** The part of [getValues] before the slices are taken, when it lets
    the call through. *)
Lemma getValues_checks_pass xUnits yUnits (tp : option (list T)) isotopes w :
  time_points_present xUnits tp w →
  truthy isotopes = false ∨ is_Some (names (self w)) →
  getValues xUnits yUnits tp isotopes w
  = ('(xVals, colIndices) ← _getXSlice xUnits tp;
     rowIndices ← _getIsoID isotopes;
     d ← gets data;
     allY ← lift (subscript d yUnits);
     if (shape0 allY =? 1) || (ndim allY =? 1) then
       match selected colIndices with
       | Some colIndices => lift (take allY colIndices)
       | None => mret allY
       end
     else
       match xVals with
       | None => raise TypeError
       | Some xVals =>
           let allRows := match allY with Arr2 rows => rows | Arr1 _ => [] end in
           yVals ← lift (comprehension
                           (λ rowId,
                              match allRows !! rowId with
                              | None => Raise IndexError
                              | Some row =>
                                  match match selected colIndices with
                                        | Some colIndices => take_list row colIndices
                                        | None => Return row
                                        end with
                                  | Raise e => Raise e
                                  | Return src => broadcast_row (shape0 xVals) src
                                  end
                              end)
                           rowIndices);
           mret (Arr2 yVals)
       end) w.
Proof.
  intros Htp Hnames. unfold getValues.
  erewrite bind_Return; cycle 1.
  { destruct tp as [timePoints|]; [|reflexivity].
    destruct Htp as (valid & Hx & Hall).
    erewrite bind_Return; [|exact (time_check_passes _ _ _ _ Hx Hall)].
    reflexivity. }
  erewrite bind_Return; [|reflexivity]. cbv beta.
  erewrite bind_Return; [reflexivity|].
  destruct Hnames as [-> | [ns ->]]; [done|]. by destruct (truthy isotopes).
Qed.

(** X5.  [getValues] needs the isotope names even when none are asked
    for: with [self.names] still [None] and no names requested, a call
    that passes the time-point check and whose x-axis can be sliced raises
    [TypeError], whatever the category, one-dimensional ones included. *)
Theorem getValues_needs_names xUnits yUnits (tp : option (list T)) isotopes
    (s : option (ndarray T) * option (list nat)) m l :
  names m = None →
  truthy isotopes = false →
  time_points_present xUnits tp (World m l) →
  (_getXSlice xUnits tp (World m l)).1 = Return s →
  getValues xUnits yUnits tp isotopes (World m l) = (Raise TypeError, World m l).
Proof.
  intros Hns Hf Htp Hs.
  rewrite getValues_checks_pass by auto.
  erewrite bind_Return;
    [|by rewrite (reads_only_run _ _ (_getXSlice_reads xUnits tp)), Hs].
  destruct s as [xVals colIndices].
  erewrite bind_Raise; [done|].
  unfold _getIsoID. erewrite bind_Return; [|reflexivity]. simpl.
  by rewrite Hf, Hns.
Qed.

(** X6.  For a one-dimensional category, requested time points that are
    all on a one-dimensional x-axis no longer than the data, and no names
    requested, [getValues] returns the one-dimensional array of the
    entries at the axis positions whose value is among the requested
    points, in axis order. *)
Theorem getValues_time_series xUnits yUnits timePoints isotopes
    (axis ys : list T) (ns : list string) m l :
  (x_axis xUnits (World m l)).1 = Return (Some (Arr1 axis)) →
  data m !! yUnits = Some (Arr1 ys) →
  length axis ≤ length ys →
  names m = Some ns →
  truthy isotopes = false →
  timePoints ≠ [] →
  (∀ time, time ∈ timePoints → time ∈ axis) →
  ∃ out,
    getValues xUnits yUnits (Some timePoints) isotopes (World m l)
    = (Return (Arr1 out), World m l) ∧
    Forall2 (λ c y, ys !! c = Some y) (columns axis timePoints) out.
Proof.
  intros Hx Hy Hlen Hns Hf Htp Hon.
  destruct (_getXSlice_run xUnits timePoints axis (World m l) Hx)
    as (xVals & Hslice & _).
  destruct (take_list_Return ys (columns axis timePoints)) as (out & Htake & Hout).
  { eapply Forall_impl; [apply columns_bound|]. intros c Hc; simpl in *. lia. }
  exists out. split; [|done].
  rewrite getValues_checks_pass; cycle 1.
  { exists (Arr1 axis). split; [done|].
    intros t Ht. by apply bool_decide_eq_true_2, Hon. }
  { by left. }
  rewrite (bind_Return _ _ _ _ _ Hslice).
  rewrite (bind_Return _ _ _ _ _ (_getIsoID_all _ ns (World m l) Hf Hns)).
  erewrite bind_Return; [|reflexivity]. simpl.
  erewrite bind_Return; [|by unfold lift, subscript; rewrite Hy]. simpl.
  rewrite orb_true_r.
  assert (columns axis timePoints ≠ []) as Hcols.
  { destruct timePoints as [|t ts]; [done|].
    apply (columns_nonempty _ _ t); [by left|apply Hon; by left]. }
  revert Htake Hcols. generalize (columns axis timePoints).
  intros [|c cs] Htake Hcols; [done|]. simpl.
  unfold lift. by rewrite Htake.
Qed.

(** X7.  With no time points and no names given, a two-dimensional
    category whose rows are as long as the x-axis comes back row by row,
    one row per stored isotope name: the whole array when there are as
    many names as rows. *)
Theorem getValues_everything xUnits yUnits isotopes
    (ax : ndarray T) (rows : list (list T)) (ns : list string) m l :
  (x_axis xUnits (World m l)).1 = Return (Some ax) →
  data m !! yUnits = Some (Arr2 rows) →
  length rows ≠ 1 →
  Forall (λ row, length row = shape0 ax) rows →
  names m = Some ns →
  length ns ≤ length rows →
  truthy isotopes = false →
  getValues xUnits yUnits None isotopes (World m l)
  = (Return (Arr2 (firstn (length ns) rows)), World m l) ∧
  (length ns = length rows →
   getValues xUnits yUnits None isotopes (World m l)
   = (Return (Arr2 rows), World m l)).
Proof.
  intros Hx Hy Hrows Hwide Hns Hlen Hf.
  assert (getValues xUnits yUnits None isotopes (World m l)
          = (Return (Arr2 (firstn (length ns) rows)), World m l)) as Hrun.
  { rewrite getValues_checks_pass by (done || by left).
    rewrite (bind_Return _ _ _ _ _ (_getXSlice_None _ _ (World m l) Hx)).
    rewrite (bind_Return _ _ _ _ _ (_getIsoID_all _ ns (World m l) Hf Hns)).
    erewrite bind_Return; [|reflexivity]. simpl.
    erewrite bind_Return; [|by unfold lift, subscript; rewrite Hy]. simpl.
    destruct (Nat.eqb_spec (length rows) 1) as [|_]; [done|]. simpl.
    edestruct (comprehension_Forall2
                 (λ rowId : nat,
                    match rows !! rowId with
                    | Some row => broadcast_row (shape0 ax) row
                    | None => Raise IndexError
                    end)
                 (λ rowId yRow, rows !! rowId = Some yRow)
                 (seq 0 (length ns))) as (yVals & Hcomp & HR).
    { apply Forall_forall. intros k Hk%elem_of_seq.
      destruct (lookup_lt_is_Some_2 rows k) as [row Hrow]; [lia|].
      exists row. rewrite Hrow. split; [|done].
      unfold broadcast_row. rewrite decide_True; [done|].
      exact (proj1 (Forall_lookup _ _) Hwide _ _ Hrow). }
    erewrite bind_Return; [|by unfold lift; rewrite Hcomp]. simpl.
    unfold mret, M_ret, ret. do 3 f_equal. apply list_eq. intros i.
    destruct (decide (i < length ns)) as [Hi|Hi].
    - rewrite lookup_take_lt by done.
      destruct (Forall2_lookup_l _ _ _ i i HR) as (y & Hy' & Hrow).
      { by apply lookup_seq_lt. }
      by rewrite Hy', Hrow.
    - rewrite lookup_take_ge by lia. apply lookup_ge_None.
      rewrite <- (Forall2_length _ _ _ HR), length_seq. lia. }
  split; [exact Hrun|]. intros Heq. rewrite Hrun, Heq. by rewrite firstn_all.
Qed.

(** X8.  An empty list of time points is not an empty selection.  For a
    one-dimensional category the call returns all of it; for a
    two-dimensional one whose rows have two entries or more it raises
    [ValueError]. *)
Theorem getValues_empty_request xUnits yUnits isotopes
    (axis : list T) (ns : list string) m l :
  (x_axis xUnits (World m l)).1 = Return (Some (Arr1 axis)) →
  names m = Some ns →
  truthy isotopes = false →
  (∀ ys, data m !! yUnits = Some (Arr1 ys) →
         getValues xUnits yUnits (Some []) isotopes (World m l)
         = (Return (Arr1 ys), World m l)) ∧
  (∀ row rows, data m !! yUnits = Some (Arr2 (row :: rows)) →
               rows ≠ [] → 2 ≤ length row → ns ≠ [] →
               getValues xUnits yUnits (Some []) isotopes (World m l)
               = (Raise ValueError, World m l)).
Proof.
  intros Hx Hns Hf.
  destruct (_getXSlice_run xUnits [] axis (World m l) Hx)
    as (xVals & Hslice & HxVals).
  assert (columns axis [] = []) as Hcols.
  { destruct (columns axis []) as [|c cs] eqn:Hc; [done|].
    assert (c ∈ columns axis []) as (x & _ & Hin)%elem_of_columns
      by (rewrite Hc; by left).
    by apply elem_of_nil in Hin. }
  rewrite Hcols in Hslice, HxVals.
  destruct xVals; [|done]. clear HxVals.
  assert (time_points_present xUnits (Some []) (World m l)) as Htp.
  { exists (Arr1 axis). split; [done|]. intros t Ht. by apply elem_of_nil in Ht. }
  split.
  - intros ys Hy. rewrite (getValues_checks_pass _ _ _ _ _ Htp (or_introl Hf)).
    rewrite (bind_Return _ _ _ _ _ Hslice).
    rewrite (bind_Return _ _ _ _ _ (_getIsoID_all _ ns (World m l) Hf Hns)).
    erewrite bind_Return; [|reflexivity]. simpl.
    erewrite bind_Return; [|by unfold lift, subscript; rewrite Hy]. simpl.
    by rewrite orb_true_r.
  - intros row rows Hy Hrows Hrow Hne.
    rewrite (getValues_checks_pass _ _ _ _ _ Htp (or_introl Hf)).
    rewrite (bind_Return _ _ _ _ _ Hslice).
    rewrite (bind_Return _ _ _ _ _ (_getIsoID_all _ ns (World m l) Hf Hns)).
    erewrite bind_Return; [|reflexivity]. simpl.
    erewrite bind_Return; [|by unfold lift, subscript; rewrite Hy]. simpl.
    destruct rows as [|row' rows]; [done|]. simpl.
    destruct ns as [|n ns]; [done|]. simpl.
    erewrite bind_Raise; [done|]. unfold lift, broadcast_row.
    rewrite decide_False by lia.
    destruct row as [|? [|? ?]]; simpl in *; [lia|lia|done].
Qed.

Lemma enumerate_in_ext (a : ndarray T) (points points' : list T) :
  (∀ t, t ∈ points ↔ t ∈ points') →
  enumerate_in a points = enumerate_in a points'.
Proof.
  intros Hsame. destruct a as [xs|rows]; simpl.
  - f_equal. apply imap_ext. intros i x _. f_equal. by apply bool_decide_ext.
  - apply comprehension_ext. intros [i row] _.
    assert (row_in row points = row_in row points') as ->; [|done].
    unfold row_in. destruct points as [|p ps], points' as [|p' ps'].
    + done.
    + exfalso. eapply not_elem_of_nil, Hsame. by left.
    + exfalso. eapply not_elem_of_nil, Hsame. by left.
    + destruct row as [|x [|? ?]]; [done| |done].
      f_equal. by apply bool_decide_ext.
Qed.

Lemma _getXSlice_ext xUnits (points points' : list T) w :
  (∀ t, t ∈ points ↔ t ∈ points') →
  _getXSlice xUnits (Some points) w = _getXSlice xUnits (Some points') w.
Proof.
  intros Hsame. unfold _getXSlice, mbind, M_bind, bind.
  destruct (x_axis xUnits w) as [[[allX|]|e] w']; [|done..].
  by rewrite (enumerate_in_ext allX _ _ Hsame).
Qed.

Lemma names_check_fails xUnits yUnits (tp : option (list T)) isotopes m l :
  truthy isotopes = true →
  names m = None →
  time_points_present xUnits tp (World m l) →
  getValues xUnits yUnits tp isotopes (World m l)
  = (Raise (AttributeError
              ("Isotope names not stored on DepletedMaterial " +:+ name m +:+ ".")),
     World m l).
Proof.
  intros Htruthy Hnames Htp. unfold getValues.
  erewrite bind_Return; cycle 1.
  { destruct tp as [timePoints|]; [|reflexivity].
    destruct Htp as (valid & Hx & Hall).
    erewrite bind_Return; [|exact (time_check_passes _ _ _ _ Hx Hall)].
    reflexivity. }
  erewrite bind_Return; [|reflexivity]. simpl.
  by rewrite Htruthy, Hnames.
Qed.

(** X9.  Only the set of requested time points matters: two requests
    with the same points, in any order and with any repetitions, all on
    the x-axis, give the same result, or the same exception. *)
Theorem getValues_request_as_set xUnits yUnits (points points' : list T)
    isotopes valid w :
  (x_axis xUnits w).1 = Return (Some valid) →
  (∀ t, t ∈ points → elem t valid = true) →
  (∀ t, t ∈ points ↔ t ∈ points') →
  getValues xUnits yUnits (Some points) isotopes w
  = getValues xUnits yUnits (Some points') isotopes w.
Proof.
  intros Hx Hon Hsame.
  assert (time_points_present xUnits (Some points) w) as Htp
    by (exists valid; split; [done|exact Hon]).
  assert (time_points_present xUnits (Some points') w) as Htp'.
  { exists valid. split; [done|]. intros t Ht. by apply Hon, Hsame. }
  destruct (truthy isotopes) eqn:Htruthy, (names (self w)) as [ns|] eqn:Hns.
  2:{ destruct w as [m l]. simpl in Hns. by rewrite !names_check_fails. }
  all: rewrite (getValues_checks_pass _ _ _ _ _ Htp)
    by (rewrite ?Hns; eauto);
    rewrite (getValues_checks_pass _ _ _ _ _ Htp')
    by (rewrite ?Hns; eauto);
    unfold mbind, M_bind, bind; by rewrite (_getXSlice_ext _ _ _ _ Hsame).
Qed.

(** X10.  A requested isotope name that is not among the stored names
    makes the call raise [ValueError], the exception of [list.index],
    once the time-point check has passed and the x-axis has been
    sliced. *)
Theorem getValues_unknown_isotope xUnits yUnits (tp : option (list T))
    (requested ns : list string) (isotope : string)
    (s : option (ndarray T) * option (list nat)) m l :
  names m = Some ns →
  isotope ∈ requested →
  isotope ∉ ns →
  time_points_present xUnits tp (World m l) →
  (_getXSlice xUnits tp (World m l)).1 = Return s →
  getValues xUnits yUnits tp (ListArg requested) (World m l)
  = (Raise ValueError, World m l).
Proof.
  intros Hns Hin Hnot Htp Hs.
  rewrite getValues_checks_pass by (simpl; rewrite ?Hns; eauto).
  erewrite bind_Return;
    [|by rewrite (reads_only_run _ _ (_getXSlice_reads xUnits tp)), Hs].
  destruct s as [xVals colIndices].
  erewrite bind_Raise; [done|].
  assert (truthy (ListArg requested) = true) as Htr
    by (destruct requested; [by apply elem_of_nil in Hin|done]).
  unfold _getIsoID. erewrite bind_Return; [|reflexivity]. cbv beta.
  rewrite Htr. cbn [negb self]. rewrite Hns. unfold lift. f_equal.
  apply (comprehension_Raise _ _ requested isotope Hin).
  - by rewrite (proj2 (index_None isotope ns) Hnot).
  - intros y e'. destruct (index y ns); [done|]. by intros [= <-].
Qed.

(** X11.  The row indices [_getIsoID] returns for a list of names point
    at those names: each is the first position of its name in
    [self.names].  Without names it returns every position, in order. *)
Theorem _getIsoID_first_positions (isotopes : isotopes_arg)
    (ns : list string) (rowIndices : list nat) w :
  names (self w) = Some ns →
  (_getIsoID isotopes w).1 = Return rowIndices →
  (truthy isotopes = false → rowIndices = seq 0 (length ns)) ∧
  (∀ requested, isotopes = ListArg requested → requested ≠ [] →
     Forall2 (λ isotope rowId,
                ns !! rowId = Some isotope ∧
                ∀ j, j < rowId → ns !! j ≠ Some isotope)
             requested rowIndices).
Proof.
  intros Hns Hrun. split.
  - intros Hf. rewrite (_getIsoID_all _ ns w Hf Hns) in Hrun.
    by injection Hrun as <-.
  - intros requested -> Hne.
    assert (truthy (ListArg requested) = true) as Htr by (by destruct requested).
    unfold _getIsoID in Hrun.
    erewrite bind_Return in Hrun; [|reflexivity]. cbv beta in Hrun.
    rewrite Htr in Hrun. cbn [negb self] in Hrun. rewrite Hns in Hrun.
    cbn [lift fst] in Hrun. clear Hne Htr.
    revert rowIndices Hrun.
    induction requested as [|x xs IH]; intros rowIndices Hrun; simpl in Hrun.
    + injection Hrun as <-. constructor.
    + destruct (index x ns) as [i|] eqn:Hi; [|done].
      destruct (comprehension _ xs) as [ks|e]; [|done].
      injection Hrun as <-. constructor; [by apply index_Some|by apply IH].
Qed.

End getValues_more.

(** * Loading data into a material and reading it back *)

Section material_data_spec.
Import py numpy materials material_data.
Context {T : Type} `{Number T}.
Context (conv : string → string) (float : string → option T)
        (ragged : list (list T) → outcome (ndarray T)).

Local Abbreviation floats := (material_data.floats float).
Local Abbreviation addData := (material_data.addData conv float ragged).

Implicit Types (m : DepletedMaterial T) (w : world (DepletedMaterial T))
  (l : list (level * string)) (a : ndarray T).

Lemma array_rows (rows : list (list T)) (width : nat) :
  rows ≠ [] → Forall (λ r, length r = width) rows →
  array ragged rows = Return (Arr2 rows).
Proof.
  intros Hne Hw. destruct rows as [|row rest]; [done|]. simpl.
  inversion_clear Hw as [|?? Hrow Hrest].
  rewrite (proj2 (forallb_forall _ _)); [done|].
  intros r Hr%list_elem_of_In. apply Nat.eqb_eq.
  rewrite Hrow. exact (proj1 (Forall_forall _ _) Hrest r Hr).
Qed.

Lemma addData_run (variable : string) rawData a m l :
  match rawData with
  | RawStr s => match floats s with
                | Return xs => Return (Arr1 xs)
                | Raise e => Raise e
                end
  | RawLines lines =>
      match comprehension floats (filter (λ line, line ≠ "") lines) with
      | Return rows => array ragged rows
      | Raise e => Raise e
      end
  end = Return a →
  addData variable rawData (World m l)
  = (Return tt,
     World (set_data (<[conv variable := a]> (data m)) m)
           (l ++ [(DEBUG, "Adding " +:+ conv variable +:+ " data to " +:+ name m)])).
Proof.
  intros Hparse. unfold material_data.addData.
  erewrite bind_Return; [|reflexivity].
  erewrite bind_Return; [|reflexivity].
  erewrite bind_Return; [|by unfold lift; rewrite Hparse]. done.
Qed.

Lemma __getitem___run (item : string) a w :
  data (self w) !! item = Some a → __getitem__ item w = (Return a, w).
Proof.
  intros Ha. unfold __getitem__. erewrite bind_Return; [|reflexivity].
  simpl. by rewrite Ha.
Qed.

(** X12.  What [addData] stores can be read back with [self[...]] under
    the normalised name.  A string of numbers is stored as a
    one-dimensional array.  A list of lines is stored as a
    two-dimensional array with one row per line that is not the empty
    string, when those lines hold equally many numbers and there is at
    least one.  Nothing else of the material changes, and the only
    message is the debug message. *)
Theorem addData_getitem_roundtrip (variable : string) m l :
  let w' := λ a,
    World (set_data (<[conv variable := a]> (data m)) m)
          (l ++ [(DEBUG, "Adding " +:+ conv variable +:+ " data to " +:+ name m)]) in
  (∀ (s : string) (xs : list T),
     floats s = Return xs →
     addData variable (RawStr s) (World m l) = (Return tt, w' (Arr1 xs)) ∧
     __getitem__ (conv variable) (w' (Arr1 xs)) = (Return (Arr1 xs), w' (Arr1 xs))) ∧
  (∀ (lines : list string) (rows : list (list T)) (width : nat),
     comprehension floats (filter (λ line, line ≠ "") lines) = Return rows →
     rows ≠ [] →
     Forall (λ r, length r = width) rows →
     addData variable (RawLines lines) (World m l) = (Return tt, w' (Arr2 rows)) ∧
     __getitem__ (conv variable) (w' (Arr2 rows)) = (Return (Arr2 rows), w' (Arr2 rows))).
Proof.
  intros w'. split.
  - intros s xs Hs. split.
    + apply addData_run. by rewrite Hs.
    + apply __getitem___run. simpl. apply lookup_insert_eq.
  - intros lines rows width Hrows Hne Hwide. split.
    + apply addData_run. rewrite Hrows. by apply (array_rows _ width).
    + apply __getitem___run. simpl. apply lookup_insert_eq.
Qed.

Lemma floats_bad_token (line item : string) :
  item ∈ detector.split line → float item = None →
  floats line = Raise ValueError.
Proof.
  intros Hin Hbad. unfold material_data.floats.
  apply (comprehension_Raise _ _ _ item Hin).
  - by rewrite Hbad.
  - intros y e'. destruct (float y); [done|]. by intros [= <-].
Qed.

Lemma floats_only_ValueError (line : string) e :
  floats line = Raise e → e = ValueError.
Proof.
  unfold material_data.floats. generalize (detector.split line).
  intros items. induction items as [|x xs IH]; simpl; [done|].
  destruct (float x); [|by intros [= <-]].
  destruct (comprehension _ xs); [done|]. intros [= <-]. by apply IH.
Qed.

(** X13.  A token that [float] rejects makes [addData] raise
    [ValueError], in a string as in any line of a list; the material is
    left as it was, the debug message being the only trace of the
    call. *)
Theorem addData_bad_token (variable line item : string) m l :
  item ∈ detector.split line →
  float item = None →
  let w' :=
    World m (l ++ [(DEBUG, "Adding " +:+ conv variable +:+ " data to " +:+ name m)]) in
  addData variable (RawStr line) (World m l) = (Raise ValueError, w') ∧
  ∀ lines, line ∈ lines →
           addData variable (RawLines lines) (World m l) = (Raise ValueError, w').
Proof.
  intros Hin Hbad w'.
  pose proof (floats_bad_token _ _ Hin Hbad) as Hline.
  split.
  - unfold material_data.addData.
    erewrite bind_Return; [|reflexivity].
    erewrite bind_Return; [|reflexivity].
    erewrite bind_Raise; [done|]. unfold lift. by rewrite Hline.
  - intros lines Hlines.
    unfold material_data.addData.
    erewrite bind_Return; [|reflexivity].
    erewrite bind_Return; [|reflexivity].
    erewrite bind_Raise; [done|]. unfold lift.
    rewrite (comprehension_Raise floats ValueError _ line); [done| |done|].
    + apply list_elem_of_filter. split; [|done].
      intros ->. by apply elem_of_nil in Hin.
    + intros y e'. apply floats_only_ValueError.
Qed.

(** X14.  A category loaded from a string is served back whole by
    [getValues] when neither time points nor names are given, provided
    the isotope names are loaded and the x-axis resolves. *)
Theorem addData_then_getValues (variable xUnits s : string) (xs : list T)
    (isotopes : isotopes_arg) (ns : list string) (ax : option (ndarray T)) m l :
  floats s = Return xs →
  names m = Some ns →
  truthy isotopes = false →
  let w1 := (addData variable (RawStr s) (World m l)).2 in
  (x_axis xUnits w1).1 = Return ax →
  getValues xUnits (conv variable) None isotopes w1 = (Return (Arr1 xs), w1).
Proof.
  intros Hs Hns Hf w1 Hx. unfold w1 in *.
  rewrite (addData_run variable (RawStr s) (Arr1 xs)) in * by (by rewrite Hs).
  cbn [snd] in *.
  rewrite getValues_checks_pass by (done || by left).
  rewrite (bind_Return _ _ _ _ _ (_getXSlice_None _ _ _ Hx)).
  erewrite bind_Return; [|by apply (_getIsoID_all _ ns)].
  erewrite bind_Return; [|reflexivity]. cbn [self data set_data].
  erewrite bind_Return;
    [|by unfold lift, subscript; rewrite lookup_insert_eq].
  cbn [ndim]. by rewrite orb_true_r.
Qed.

(** ** The cached properties *)

Lemma cached_first (key : string) message cache set_cache a w :
  data (self w) !! key = Some a → cache (self w) = None →
  cached key message cache set_cache w
  = (Return a, World (set_cache (Some a) (self w)) (log w)).
Proof.
  intros Ha Hc. unfold cached.
  erewrite bind_Return; [|reflexivity]. cbv beta. rewrite Ha.
  erewrite bind_Return; [|reflexivity]. cbv beta. by rewrite Hc.
Qed.

Lemma cached_again (key : string) message cache set_cache a a' w :
  data (self w) !! key = Some a → cache (self w) = Some a' →
  cached key message cache set_cache w = (Return a', w).
Proof.
  intros Ha Hc. unfold cached.
  erewrite bind_Return; [|reflexivity]. cbv beta. rewrite Ha.
  erewrite bind_Return; [|reflexivity]. cbv beta. by rewrite Hc.
Qed.

(** X15.  The [burnup] property remembers the array it returned first.
    After that first read, loading new burnup data with [addData]
    changes what [self['burnup']] returns, but the property still
    returns the old array. *)
Theorem burnup_outlives_addData (variable s : string) (xs : list T) a m l :
  data m !! "burnup" = Some a →
  __burnup__ m = None →
  conv variable = "burnup" →
  floats s = Return xs →
  let w1 := (burnup (World m l)).2 in
  let w2 := (addData variable (RawStr s) w1).2 in
  (burnup (World m l)).1 = Return a ∧
  (__getitem__ "burnup" w2).1 = Return (Arr1 xs) ∧
  (burnup w2).1 = Return a.
Proof.
  intros Ha Hnone Hconv Hs w1 w2. unfold w2, w1, burnup.
  rewrite (cached_first _ _ _ _ a (World m l)) by done. cbn [fst snd self log].
  rewrite (addData_run variable (RawStr s) (Arr1 xs)) by (by rewrite Hs).
  cbn [snd]. rewrite Hconv. split; [done|]. split.
  - erewrite __getitem___run; [done|]. simpl. apply lookup_insert_eq.
  - erewrite (cached_again _ _ _ _ (Arr1 xs) a); [done| |done].
    simpl. apply lookup_insert_eq.
Qed.

(** X16.  Reading [adens] or [mdens] a second time returns the array of
    the first read and changes nothing; the first read returns
    [self.data['adens']] or [self.data['mdens']] and changes only the
    private attribute that remembers it. *)
Theorem densities_read_twice a m l :
  (data m !! "adens" = Some a → __adens__ m = None →
   let w1 := World (set___adens__ (Some a) m) l in
   adens (World m l) = (Return a, w1) ∧ adens w1 = (Return a, w1)) ∧
  (data m !! "mdens" = Some a → __mdens__ m = None →
   let w1 := World (set___mdens__ (Some a) m) l in
   mdens (World m l) = (Return a, w1) ∧ mdens w1 = (Return a, w1)).
Proof.
  split; intros Ha Hnone w1; unfold adens, mdens; split.
  - by rewrite (cached_first _ _ _ _ a (World m l)).
  - by rewrite (cached_again _ _ _ _ a a w1).
  - by rewrite (cached_first _ _ _ _ a (World m l)).
  - by rewrite (cached_again _ _ _ _ a a w1).
Qed.

End material_data_spec.

(** * More on [DetectorReader]: shapes, filtering, failures *)

Section DetectorReader_more.
Import py numpy detector.
Context {T : Type} (float : string → option T).
Local Arguments String.append !_ _ / : simpl nomatch.

Local Abbreviation parse_data := (detector.parse_data float).
Local Abbreviation _addDetector := (detector._addDetector float).
Local Abbreviation read_chunk := (detector.read_chunk float).
Local Abbreviation _read := (detector._read float).

Implicit Types (r : DetectorReader T) (w : world (DetectorReader T))
  (l : list (level * string)) (d : Detector T) (data : ndarray T)
  (ds : gmap string (Detector T)).

Lemma comprehension_Return_inv {A B} (f : A → outcome B) xs ys :
  comprehension f xs = Return ys → Forall2 (λ x y, f x = Return y) xs ys.
Proof.
  revert ys. induction xs as [|x xs IH]; intros ys; simpl.
  - intros [= <-]. constructor.
  - destruct (f x) as [y|e] eqn:Hx; [|done].
    destruct (comprehension f xs) as [ys'|e]; [|done].
    intros [= <-]. constructor; [done|by apply IH].
Qed.

Lemma broadcast_row_Return (width : nat) (src row : list T) :
  broadcast_row width src = Return row →
  length row = width ∧ (length src = width ∨ length src = 1).
Proof.
  unfold broadcast_row. destruct (decide (length src = width)) as [Hw|Hw].
  - intros [= <-]. auto.
  - destruct src as [|x [|? ?]]; [done| |done].
    intros [= <-]. split; [apply length_replicate|by right].
Qed.

(** X17.  Whenever [_addDetector] can build its array, the array has
    one row per line of the chunk and every row has the allocated
    width, [NUM_COLS] for tallies and the number of tokens of the first
    line for a grid.  Every line then had that many tokens, or exactly
    one, which numpy repeats across the row. *)
Theorem parse_data_shape (chunk : list string) (binType : option string) data :
  parse_data chunk binType = Return data →
  ∃ rows,
    data = Arr2 rows ∧
    length rows = length chunk ∧
    Forall (λ row, length row = width_of chunk binType) rows ∧
    Forall (λ line, length (split line) = width_of chunk binType ∨
                    length (split line) = 1) chunk.
Proof.
  unfold detector.parse_data.
  assert (match binType, chunk with
          | None, _ => Return NUM_COLS
          | Some _, [] => Raise IndexError
          | Some _, line :: _ => Return (length (split line))
          end = Return (width_of chunk binType) ∨
          (binType ≠ None ∧ chunk = [])) as [-> | [Hb ->]].
  { destruct binType, chunk; simpl; auto. }
  2:{ by destruct binType. }
  generalize (width_of chunk binType). intros width.
  destruct (comprehension _ chunk) as [rows|e] eqn:Hrows; [|done].
  intros [= <-]. exists rows. split; [done|].
  apply comprehension_Return_inv in Hrows.
  split; [symmetry; by eapply Forall2_length|].
  split.
  - eapply Forall2_Forall_r; [exact Hrows|]. apply Forall_forall.
    intros line _ row Hrow.
    destruct (comprehension _ (split line)) as [xs|e]; [|done].
    by apply broadcast_row_Return in Hrow as [? _].
  - eapply Forall2_Forall_l; [exact Hrows|]. apply Forall_forall.
    intros row _ line Hrow.
    destruct (comprehension _ (split line)) as [xs|e] eqn:Hxs; [|done].
    apply comprehension_Return_inv, Forall2_length in Hxs.
    apply broadcast_row_Return in Hrow as [_ Hlen]. by rewrite Hxs.
Qed.

(** X18.  A reader that was given names skips a chunk whose name is
    neither requested nor, less its last character, the name of a stored
    detector: nothing is parsed, stored or logged, whatever the chunk
    holds. *)
Theorem read_chunk_skips_unrequested (first : string) (body : list string) r l :
  _loadAll r = false →
  slice_from 3 (first_field first) ∉ settings_names r →
  detectors r !! but_last (slice_from 3 (first_field first)) = None →
  read_chunk (first :: body) (World r l) = (Return tt, World r l).
Proof.
  intros Hall Hnot Hnone. unfold detector.read_chunk.
  generalize dependent (slice_from 3 (first_field first)).
  intros detString Hnot Hnone. cbv zeta.
  erewrite bind_Return; [|reflexivity]. cbn [self].
  rewrite bool_decide_eq_false_2 by (rewrite Hnone; by intros [? ?]).
  erewrite bind_Return; [|reflexivity].
  erewrite bind_Return; [|reflexivity]. cbn [self].
  by rewrite Hall, bool_decide_eq_false_2.
Qed.

Lemma app_char_ne (base : string) (c : ascii) : base +:+ String c "" ≠ base.
Proof.
  induction base as [|a base IH]; [done|].
  simpl. intros [= Heq]. by apply IH.
Qed.

(** X19.  While a detector named [base] is stored, a chunk named [base]
    plus one character is taken as a grid of it even if that longer name
    was requested as a detector of its own: the chunk is read without
    error, its data goes to [grids] of [base], and what is stored under
    the longer name, if anything, is unchanged. *)
Theorem suffix_wins_over_request (first : string) (body : list string)
    (base : string) (c : ascii) d data r l :
  slice_from 3 (first_field first) = base +:+ String c "" →
  detectors r !! base = Some d →
  parse_data body (Some (String c "")) = Return data →
  let w' := (read_chunk (first :: body) (World r l)).2 in
  (read_chunk (first :: body) (World r l)).1 = Return tt ∧
  detectors (self w') !! base = Some (set_grid (Some (String c "")) data d) ∧
  detectors (self w') !! (base +:+ String c "")
  = detectors r !! (base +:+ String c "").
Proof.
  intros Hname Hbase Hdata w'. unfold w'.
  rewrite (read_chunk_grid float _ _ _ _ _ _ Hname) by (by rewrite Hbase).
  rewrite (_addDetector_Return float _ _ _ _ _ _ Hdata), Hbase. simpl.
  split; [done|]. split; [apply lookup_insert_eq|].
  apply lookup_insert_ne. intros Heq. by apply (app_char_ne base c).
Qed.

(** X20.  A tally chunk for a name that is already stored, that passes
    the name filter, and that less its last character is not the name of
    a stored detector, does not replace the tally array: when its body
    parses, the chunk is read without error and its data is stored in
    [grids] of the existing detector, under the key [None]. *)
Theorem repeated_tally_becomes_grid (first : string) (body : list string)
    (detName : string) d data r l :
  slice_from 3 (first_field first) = detName →
  detectors r !! but_last detName = None →
  detectors r !! detName = Some d →
  detName ∈ settings_names r ∨ _loadAll r = true →
  parse_data body None = Return data →
  ∃ w', read_chunk (first :: body) (World r l) = (Return tt, w') ∧
        detectors (self w')
        = <[detName := {| name := name d; tallies := tallies d;
                          grids := <[None := data]> (grids d) |}]> (detectors r).
Proof.
  intros Hname Hprefix Hd Hreq Hdata.
  rewrite (read_chunk_tally float _ _ _ _ _ Hname Hprefix Hreq).
  rewrite (_addDetector_Return float _ _ _ _ _ _ Hdata), Hd.
  eexists. split; reflexivity.
Qed.

(** ** When a chunk cannot be read *)

Lemma read_chunk_Raise (chunk : list string) e w w' :
  read_chunk chunk w = (Raise e, w') → w' = w.
Proof.
  destruct w as [r l]. destruct chunk as [|first body]; [by intros [= _ <-]|].
  unfold detector.read_chunk.
  generalize (slice_from 3 (first_field first)). intros detString. cbv zeta.
  erewrite bind_Return; [|reflexivity].
  assert (∀ detName binType,
            _addDetector body detName binType (World r l) = (Raise e, w') →
            w' = World r l) as Hadd.
  { intros detName binType.
    destruct (parse_data body binType) as [data|e0] eqn:Hp.
    - rewrite (_addDetector_Return float _ _ _ _ _ _ Hp).
      by destruct (detectors r !! detName).
    - rewrite (_addDetector_Raise float _ _ _ _ _ Hp). by intros [= _ <-]. }
  destruct (bool_decide _).
  - destruct (last_char detString) as [c|e0].
    + erewrite bind_Return; [|reflexivity]. apply Hadd.
    + erewrite bind_Raise; [|reflexivity]. by intros [= _ <-].
  - erewrite bind_Return; [|reflexivity].
    erewrite bind_Return; [|reflexivity].
    destruct (_ || _); [apply Hadd|done].
Qed.

Lemma for_each_app {O A} (body : A → M O unit) (xs ys : list A)
    (s s1 : world O) :
  for_each body xs s = (Return tt, s1) →
  for_each body (xs ++ ys) s = for_each body ys s1.
Proof.
  revert s. induction xs as [|x xs IH]; intros s; simpl.
  - by intros [= <-].
  - unfold mbind, M_bind, bind.
    destruct (body x s) as [[[]|e] s0]; [apply IH|done].
Qed.

(** X21.  When a chunk cannot be read, [_read] stops there with the
    exception of that chunk: the detectors are those stored from the
    chunks before it, the chunks after it are not looked at, and "Done"
    is not logged. *)
Theorem _read_stops_at_bad_chunk (before rest : list (list string))
    (bad : list string) e r l w1 w2 :
  for_each read_chunk before
    (World r (l ++ [(INFO, "Preparing to read " +:+ filePath r)]))
  = (Return tt, w1) →
  read_chunk bad w1 = (Raise e, w2) →
  _read (before ++ bad :: rest) (World r l) = (Raise e, w1).
Proof.
  intros Hbefore Hbad. pose proof (read_chunk_Raise _ _ _ _ Hbad) as ->.
  unfold detector._read.
  erewrite bind_Return; [|reflexivity].
  erewrite bind_Return; [|reflexivity].
  erewrite bind_Raise; [done|]. cbn [self].
  rewrite (for_each_app _ _ _ _ _ Hbefore). simpl.
  unfold mbind, M_bind, bind. by rewrite Hbad.
Qed.

(** ** What is true of the stored detectors *)

Lemma well_formed_init (file : string) (requested : list string) :
  well_formed (T:=T) (__init__ file requested).
Proof. intros n d Hn. simpl in Hn. by rewrite lookup_empty in Hn. Qed.

Lemma _addDetector_well_formed (chunk : list string) (detName : string)
    (binType : option string) r l :
  well_formed r →
  (_loadAll r = false → is_Some (detectors r !! detName) ∨
                        detName ∈ settings_names r) →
  (detectors r !! detName = None → binType = None) →
  well_formed (self (_addDetector chunk detName binType (World r l)).2).
Proof.
  intros Hwf Hreq Hnew.
  destruct (parse_data chunk binType) as [data|e] eqn:Hp.
  2:{ by rewrite (_addDetector_Raise float _ _ _ _ _ Hp). }
  rewrite (_addDetector_Return float _ _ _ _ _ _ Hp).
  destruct (detectors r !! detName) as [d0|] eqn:Hd0; unfold well_formed; simpl.
  - intros n d. rewrite lookup_insert. case_decide as Hn.
    + subst n. intros [= <-]. simpl.
      destruct (Hwf detName d0 Hd0) as (? & ? & ?). eauto.
    + apply Hwf.
  - rewrite (Hnew eq_refl) in Hp.
    apply parse_data_shape in Hp as (rows & -> & _ & Hrows & _).
    intros n d. rewrite lookup_insert. case_decide as Hn.
    + subst n. intros [= <-]. simpl. split; [done|]. split; [eauto|].
      intros Hall. destruct (Hreq Hall) as [[? ?]|?]; done.
    + apply Hwf.
Qed.

Lemma read_chunk_well_formed (chunk : list string) w :
  well_formed (self w) → well_formed (self (read_chunk chunk w).2).
Proof.
  destruct w as [r l]. intros Hwf.
  destruct chunk as [|first body]; [done|].
  unfold detector.read_chunk.
  generalize (slice_from 3 (first_field first)). intros detString. cbv zeta.
  erewrite bind_Return; [|reflexivity]. cbn [self].
  destruct (bool_decide (is_Some _)) eqn:Hgrid.
  - apply bool_decide_eq_true_1 in Hgrid.
    destruct (last_char detString) as [c|e0].
    + erewrite bind_Return; [|reflexivity].
      apply _addDetector_well_formed; [done|auto|].
      intros Hnone. rewrite Hnone in Hgrid. by destruct Hgrid.
    + by erewrite bind_Raise; [|reflexivity].
  - erewrite bind_Return; [|reflexivity].
    erewrite bind_Return; [|reflexivity]. cbn [self].
    destruct (bool_decide (detString ∈ settings_names r)) eqn:Hin; simpl.
    + apply bool_decide_eq_true_1 in Hin.
      apply _addDetector_well_formed; auto.
    + destruct (_loadAll r) eqn:Hall; [|done].
      apply _addDetector_well_formed; [done|by rewrite Hall|done].
Qed.

Lemma for_each_well_formed (chunks : list (list string)) w :
  well_formed (self w) →
  well_formed (self (for_each read_chunk chunks w).2).
Proof.
  revert w. induction chunks as [|chunk chunks IH]; intros w Hwf; [done|].
  simpl. unfold mbind, M_bind, bind.
  pose proof (read_chunk_well_formed chunk w Hwf) as Hstep.
  destruct (read_chunk chunk w) as [[[]|e] w1]; [by apply IH|done].
Qed.

(** X22.  Whatever file a new reader reads, to the end or up to an
    exception, every detector it holds is stored under its own name, has
    a tally array whose rows all have [NUM_COLS] entries, and, when names
    were given to the reader, bears one of those names. *)
Theorem _read_well_formed (file : string) (requested : list string)
    (chunks : list (list string)) l :
  let r' := self (_read chunks (World (__init__ file requested) l)).2 in
  ∀ n d, detectors r' !! n = Some d →
         name d = n ∧
         (∃ rows, tallies d = Some (Arr2 rows) ∧
                  Forall (λ row, length row = NUM_COLS) rows) ∧
         (requested ≠ [] → n ∈ requested).
Proof.
  intros r' n d Hn. unfold r' in Hn. rewrite _read_detectors in Hn.
  pose proof (for_each_well_formed chunks
                (World (__init__ file requested)
                       (l ++ [(INFO, "Preparing to read "
                                     +:+ filePath (__init__ (T:=T) file requested))]))
                (well_formed_init file requested) n d Hn)
    as (Hname & Htally & Hreq).
  split; [done|]. split; [done|]. intros Hne.
  assert (∀ w0, settings_names (self (for_each read_chunk chunks w0).2)
                = settings_names (self w0) ∧
                _loadAll (self (for_each read_chunk chunks w0).2)
                = _loadAll (self w0)) as Hsame.
  { clear. induction chunks as [|chunk chunks IH]; intros w0; [done|].
    simpl. unfold mbind, M_bind, bind.
    assert (settings_names (self (read_chunk chunk w0).2) = settings_names (self w0) ∧
            _loadAll (self (read_chunk chunk w0).2) = _loadAll (self w0)) as Hstep.
    { destruct w0 as [r0 l0]. destruct chunk as [|first body]; [done|].
      unfold detector.read_chunk.
      generalize (slice_from 3 (first_field first)). intros detString. cbv zeta.
      erewrite bind_Return; [|reflexivity].
      assert (∀ detName binType,
                settings_names (self (_addDetector body detName binType (World r0 l0)).2)
                = settings_names r0 ∧
                _loadAll (self (_addDetector body detName binType (World r0 l0)).2)
                = _loadAll r0) as Hadd.
      { intros detName binType.
        destruct (parse_data body binType) as [data|e0] eqn:Hp.
        - rewrite (_addDetector_Return float _ _ _ _ _ _ Hp).
          by destruct (detectors r0 !! detName).
        - by rewrite (_addDetector_Raise float _ _ _ _ _ Hp). }
      destruct (bool_decide _).
      - destruct (last_char detString) as [c|e0].
        + erewrite bind_Return; [|reflexivity]. apply Hadd.
        + by erewrite bind_Raise; [|reflexivity].
      - erewrite bind_Return; [|reflexivity].
        erewrite bind_Return; [|reflexivity].
        destruct (_ || _); [apply Hadd|done]. }
    destruct (read_chunk chunk w0) as [[[]|e] w1]; simpl in *; [|done].
    destruct (IH w1) as [-> ->]. done. }
  destruct (Hsame (World (__init__ file requested)
                         (l ++ [(INFO, "Preparing to read "
                                       +:+ filePath (__init__ (T:=T) file requested))])))
    as [Hnames Hall].
  rewrite Hnames in Hreq. apply Hreq. rewrite Hall. simpl.
  by destruct requested.
Qed.

(** ** The two checks *)

(** X23.  [_precheck] returns normally on every file and adds to
    [detCount] the number of lines whose first token contains "DET",
    the start lines of grids included; the detectors, the settings and
    the log are untouched. *)
Theorem _precheck_counts (lines : list string) r l :
  ∃ r',
    _precheck lines (World r l) = (Return tt, World r' l) ∧
    detCount r' = detCount r + length (filter (λ line, starts_detector line = true) lines) ∧
    detectors r' = detectors r ∧
    settings_names r' = settings_names r ∧
    _loadAll r' = _loadAll r ∧
    filePath r' = filePath r.
Proof.
  assert (∀ line r0,
            match split line with
            | [] => mret tt
            | sline0 :: _ =>
                if contains "DET" sline0
                then modify (λ r1 : DetectorReader T,
                               set_detCount (detCount r1 + 1) r1)
                else mret tt
            end (World r0 l)
            = (Return tt,
               World (if starts_detector line
                      then set_detCount (detCount r0 + 1) r0 else r0) l))
    as Hstep.
  { intros line r0. unfold starts_detector.
    destruct (split line) as [|sline0 ?]; [done|].
    by destruct (contains "DET" sline0). }
  revert r. induction lines as [|line lines IH]; intros r.
  - exists r. simpl. repeat split; lia.
  - unfold _precheck. simpl. unfold mbind, M_bind, bind.
    rewrite Hstep, filter_cons.
    destruct (starts_detector line) eqn:Hline.
    + destruct (IH (set_detCount (detCount r + 1) r))
        as (r' & Hrun & Hcount & ? & ? & ? & ?).
      exists r'. unfold _precheck in Hrun. rewrite Hrun.
      rewrite decide_True by done.
      repeat split; try done. simpl in *. lia.
    + destruct (IH r) as (r' & Hrun & ?). exists r'.
      unfold _precheck in Hrun. rewrite Hrun.
      by rewrite decide_False by done.
Qed.

(** X24.  When as many detectors are stored as start lines were
    counted, [_postcheck] says nothing: it returns normally and the
    reader and the log are as before. *)
Theorem _postcheck_silent r l :
  detCount r = size (detectors r) →
  _postcheck (World r l) = (Return tt, World r l).
Proof.
  intros Heq. unfold _postcheck.
  erewrite bind_Return; [|reflexivity].
  erewrite bind_Return; [|reflexivity]. cbn [self].
  by rewrite bool_decide_eq_false_2 by (by intros ?).
Qed.

End DetectorReader_more.

(** * The further properties on concrete inputs *)

Section more_on_concrete_inputs.
Import py numpy examples.

Local Abbreviation three_by_three :=
  (Arr2 [[1; 2; 3]; [4; 5; 6]; [7; 8; 9]]%Z).
Local Abbreviation isotopes := (["Xe135"; "Sm149"; "total"]).
Local Abbreviation universe := (containers.__init__ (V:=Z) "0" 0 0 0).

Ltac in_list := apply list_elem_of_In; simpl; tauto.

(** ** [HomogUniv] *)

(** X1 on a fresh universe: setting [INF_KINF] leaves [get] of
    [INF_NSF], and of the uncertainty of [INF_KINF], at [None]. *)
Lemma set_leaves_other_slots_witness :
  let w1 := (containers.set lower "INF_KINF" 3%Z (containers.Bool false)
               (World universe [])).2 in
  (containers.get lower "INF_NSF" (containers.Bool false) w1).1
  = Return (containers.Value None) ∧
  (containers.get lower "INF_KINF" (containers.Bool true) w1).1
  = Return (containers.Tuple None None).
Proof.
  intros w1. split.
  - rewrite (set_leaves_other_slots lower "INF_KINF" "INF_NSF" 3%Z false false
               (World universe []) w1); [reflexivity|reflexivity|by left].
  - rewrite (set_leaves_other_slots lower "INF_KINF" "INF_KINF" 3%Z false true
               (World universe []) w1); [reflexivity|reflexivity|by right].
Defined.

(** X2 on a fresh universe loaded with three variables. *)
Lemma set_many_roundtrip_witness :
  let items := [("INF_KINF", 3%Z); ("B1_NSF", 4%Z); ("INF_NSF", 5%Z)] in
  ∃ w',
    for_each (λ nv, containers.set lower nv.1 nv.2 (containers.Bool false))
             items (World universe [])
    = (Return tt, w') ∧
    log w' = [] ∧
    Forall (λ nv, (containers.get lower nv.1 (containers.Bool false) w').1
                  = Return (containers.Value (Some nv.2))) items.
Proof.
  intros items.
  apply (set_many_roundtrip lower items false (World universe [])).
  - by apply (bool_decide_unpack _).
  - repeat constructor.
Defined.

(** X3 on [B1_KINF], whose normalised form contains "inf". *)
Lemma inf_takes_precedence_witness :
  ∃ w1,
    containers.set lower "B1_KINF" 2%Z (containers.Bool false) (World universe [])
    = (Return tt, w1) ∧
    containers.infExp (self w1) !! "b1_kinf" = Some 2%Z ∧
    containers.b1Exp (self w1) = ∅ ∧
    containers.b1Unc (self w1) = ∅.
Proof.
  apply (inf_takes_precedence lower "B1_KINF" 2%Z false (World universe [])).
  reflexivity.
Defined.

(** ** [getValues] *)

(** X5: the burnup history of a material without isotope names. *)
Lemma getValues_needs_names_witness :
  let m := material_data.set_data {[ "burnup" := Arr1 [0; 5; 9]%Z ]}
             (fuel three_by_three None) in
  materials.getValues "days" "burnup" None materials.NoneArg (World m [])
  = (Raise TypeError, World m []).
Proof.
  intros m.
  apply (getValues_needs_names "days" "burnup" None materials.NoneArg
           (Some (Arr1 [0; 10; 20]%Z), None) m []); reflexivity || exact I.
Defined.

(** X6: the burnup at days 20 and 0. *)
Lemma getValues_time_series_witness :
  ∃ out,
    materials.getValues "days" "burnup" (Some [20; 0]%Z) materials.NoneArg
      (World burned [])
    = (Return (Arr1 out), World burned []) ∧
    Forall2 (λ c y, [0; 5; 9]%Z !! c = Some y) [0; 2] out.
Proof.
  change [0; 2] with (materials.columns [0; 10; 20]%Z [20; 0]%Z).
  apply (getValues_time_series "days" "burnup" [20; 0]%Z materials.NoneArg
           [0; 10; 20]%Z [0; 5; 9]%Z isotopes burned []);
    try reflexivity.
  - discriminate.
  - intros time Ht. apply list_elem_of_In in Ht. simpl in Ht. in_list.
Defined.

(** X7: all atomic densities. *)
Lemma getValues_everything_witness :
  materials.getValues "days" "adens" None materials.NoneArg (World burned [])
  = (Return three_by_three, World burned []).
Proof.
  apply (getValues_everything "days" "adens" materials.NoneArg
           (Arr1 [0; 10; 20]%Z) [[1; 2; 3]; [4; 5; 6]; [7; 8; 9]]%Z
           isotopes burned []); try reflexivity.
  - simpl. lia.
  - repeat constructor.
Defined.

(** X8: an empty list of time points. *)
Lemma getValues_empty_request_witness :
  materials.getValues "days" "burnup" (Some []) materials.NoneArg (World burned [])
  = (Return (Arr1 [0; 5; 9]%Z), World burned []) ∧
  materials.getValues "days" "adens" (Some []) materials.NoneArg (World burned [])
  = (Raise ValueError, World burned []).
Proof.
  destruct (getValues_empty_request "days" "burnup" materials.NoneArg
              [0; 10; 20]%Z isotopes burned []) as [Hone _];
    [reflexivity..|].
  destruct (getValues_empty_request "days" "adens" materials.NoneArg
              [0; 10; 20]%Z isotopes burned []) as [_ Htwo];
    [reflexivity..|].
  split.
  - apply Hone. reflexivity.
  - apply (Htwo [1; 2; 3]%Z [[4; 5; 6]; [7; 8; 9]]%Z);
      [reflexivity|discriminate|simpl; lia|discriminate].
Defined.

(** X9: days 20, 0 and 0 again against days 0 and 20. *)
Lemma getValues_request_as_set_witness :
  materials.getValues "days" "adens" (Some [20; 0; 0]%Z)
    (materials.ListArg ["total"]) (World burned [])
  = materials.getValues "days" "adens" (Some [0; 20]%Z)
      (materials.ListArg ["total"]) (World burned []).
Proof.
  apply (getValues_request_as_set "days" "adens" [20; 0; 0]%Z [0; 20]%Z
           (materials.ListArg ["total"]) (Arr1 [0; 10; 20]%Z) (World burned [])).
  - reflexivity.
  - intros t Ht. apply list_elem_of_In in Ht. simpl in Ht.
    destruct Ht as [<-|[<-|[<-|[]]]]; reflexivity.
  - intros t. rewrite !list_elem_of_In. simpl. tauto.
Defined.

(** X10: an isotope that is not stored. *)
Lemma getValues_unknown_isotope_witness :
  materials.getValues "days" "adens" None
    (materials.ListArg ["Xe135"; "U235"]) (World burned [])
  = (Raise ValueError, World burned []).
Proof.
  apply (getValues_unknown_isotope "days" "adens" None ["Xe135"; "U235"]
           isotopes "U235" (Some (Arr1 [0; 10; 20]%Z), None) burned []).
  - reflexivity.
  - in_list.
  - by apply (bool_decide_unpack _).
  - exact I.
  - reflexivity.
Defined.

(** X11: the rows of ["total"] and ["Xe135"]. *)
Lemma _getIsoID_first_positions_witness :
  Forall2 (λ isotope rowId,
             isotopes !! rowId = Some isotope ∧
             ∀ j, j < rowId → isotopes !! j ≠ Some isotope)
          ["total"; "Xe135"] [2; 0].
Proof.
  destruct (_getIsoID_first_positions (T:=Z) (materials.ListArg ["total"; "Xe135"])
              isotopes [2; 0] (World burned [])) as [_ Hrows];
    [reflexivity..|].
  apply (Hrows ["total"; "Xe135"]); [reflexivity|discriminate].
Defined.

(** ** Loading data *)

Local Abbreviation addData :=
  (material_data.addData lower float_int ragged_refused).
Local Abbreviation empty_fuel :=
  (material_data.set_data ∅ (fuel three_by_three (Some isotopes))).

(** X12: a burnup line, and two lines of densities around an empty
    string. *)
Lemma addData_getitem_roundtrip_witness :
  let stored := λ a,
    World (material_data.set_data {[ "x" := a ]} empty_fuel)
          [(DEBUG, "Adding x data to fuel")] in
  (addData "X" (material_data.RawStr "0 5 9") (World empty_fuel [])
   = (Return tt, stored (Arr1 [0; 5; 9]%Z)) ∧
   material_data.__getitem__ "x" (stored (Arr1 [0; 5; 9]%Z))
   = (Return (Arr1 [0; 5; 9]%Z), stored (Arr1 [0; 5; 9]%Z))) ∧
  (addData "X" (material_data.RawLines ["1 2"; ""; "3 4"]) (World empty_fuel [])
   = (Return tt, stored (Arr2 [[1; 2]; [3; 4]]%Z)) ∧
   material_data.__getitem__ "x" (stored (Arr2 [[1; 2]; [3; 4]]%Z))
   = (Return (Arr2 [[1; 2]; [3; 4]]%Z), stored (Arr2 [[1; 2]; [3; 4]]%Z))).
Proof.
  intros stored.
  destruct (addData_getitem_roundtrip lower float_int ragged_refused "X"
              empty_fuel []) as [Hstr Hlines].
  split.
  - apply (Hstr "0 5 9" [0; 5; 9]%Z). reflexivity.
  - apply (Hlines ["1 2"; ""; "3 4"] [[1; 2]; [3; 4]]%Z 2);
      [reflexivity|discriminate|repeat constructor].
Defined.

(** X13: a line with a token that is not a number. *)
Lemma addData_bad_token_witness :
  let w' := World empty_fuel [(DEBUG, "Adding x data to fuel")] in
  addData "X" (material_data.RawStr "1 two 3") (World empty_fuel [])
  = (Raise ValueError, w') ∧
  addData "X" (material_data.RawLines ["4 5 6"; "1 two 3"]) (World empty_fuel [])
  = (Raise ValueError, w').
Proof.
  intros w'.
  destruct (addData_bad_token lower float_int ragged_refused "X" "1 two 3" "two"
              empty_fuel []) as [Hstr Hlines]; [in_list|reflexivity|].
  split; [exact Hstr|]. apply Hlines. in_list.
Defined.

(** X14: a burnup line loaded and served back. *)
Lemma addData_then_getValues_witness :
  let w1 := (addData "BURNUP" (material_data.RawStr "0 5 9")
               (World empty_fuel [])).2 in
  materials.getValues "days" "burnup" None materials.NoneArg w1
  = (Return (Arr1 [0; 5; 9]%Z), w1).
Proof.
  apply (addData_then_getValues lower float_int ragged_refused
           "BURNUP" "days" "0 5 9" [0; 5; 9]%Z materials.NoneArg isotopes
           (Some (Arr1 [0; 10; 20]%Z)) empty_fuel []); reflexivity.
Defined.

(** X15: the burnup property read, new burnup data loaded, the property
    read again. *)
Lemma burnup_outlives_addData_witness :
  let w1 := (material_data.burnup (World burned [])).2 in
  let w2 := (addData "BURNUP" (material_data.RawStr "1 6 10") w1).2 in
  (material_data.burnup (World burned [])).1 = Return (Arr1 [0; 5; 9]%Z) ∧
  (material_data.__getitem__ "burnup" w2).1 = Return (Arr1 [1; 6; 10]%Z) ∧
  (material_data.burnup w2).1 = Return (Arr1 [0; 5; 9]%Z).
Proof.
  apply (burnup_outlives_addData lower float_int ragged_refused
           "BURNUP" "1 6 10" [1; 6; 10]%Z (Arr1 [0; 5; 9]%Z) burned []);
    reflexivity.
Defined.

(** X16: the atomic densities read twice. *)
Lemma densities_read_twice_witness :
  let w1 := World (material_data.set___adens__ (Some three_by_three) burned) [] in
  material_data.adens (World burned []) = (Return three_by_three, w1) ∧
  material_data.adens w1 = (Return three_by_three, w1).
Proof.
  destruct (densities_read_twice three_by_three burned []) as [Hadens _].
  apply Hadens; reflexivity.
Defined.

(** ** [DetectorReader] *)

Local Abbreviation reader := (detector.__init__ (T:=Z) "demo_det0.m" ["D1"; "D2"]).
Local Abbreviation D1 :=
  ({| detector.name := "D1";
      detector.tallies := Some (Arr2 [[1; 1; 1; 1; 1; 1; 1; 1; 1; 1; 5; 2]]%Z);
      detector.grids := ∅ |}).
Local Abbreviation with_D1 :=
  (detector.set_detectors {[ "D1" := D1 ]}
     (detector.__init__ (T:=Z) "demo_det0.m" ["D1"; "D12"])).

(** X17: a grid of two lines, the second with a single number. *)
Lemma parse_data_shape_witness :
  ∃ rows,
    Arr2 [[0; 10; 5]; [7; 7; 7]]%Z = Arr2 rows ∧
    length rows = 2 ∧
    Forall (λ row, length row = 3) rows ∧
    Forall (λ line, length (detector.split line) = 3 ∨
                    length (detector.split line) = 1) ["0 10 5"; "7"].
Proof.
  apply (parse_data_shape float_int ["0 10 5"; "7"] (Some "E")
           (Arr2 [[0; 10; 5]; [7; 7; 7]]%Z)).
  reflexivity.
Defined.

(** X18: a chunk for [D3] met by a reader asked for [D1] and [D2]. *)
Lemma read_chunk_skips_unrequested_witness :
  detector.read_chunk float_int ["DETD3 = ["; "not a number"] (World reader [])
  = (Return tt, World reader []).
Proof.
  apply (read_chunk_skips_unrequested float_int "DETD3 = [" ["not a number"]
           reader []).
  - reflexivity.
  - by apply (bool_decide_unpack _).
  - reflexivity.
Defined.

(** X19: a chunk for [D12], a requested name, met while [D1] is stored. *)
Lemma suffix_wins_over_request_witness :
  let chunk := ["DETD12 = ["; "1 1 1 1 1 1 1 1 1 1 9 4"] in
  let data := Arr2 [[1; 1; 1; 1; 1; 1; 1; 1; 1; 1; 9; 4]]%Z in
  let w' := (detector.read_chunk float_int chunk (World with_D1 [])).2 in
  (detector.read_chunk float_int chunk (World with_D1 [])).1 = Return tt ∧
  detector.detectors (self w') !! "D1"
  = Some (detector.set_grid (Some "2") data D1) ∧
  detector.detectors (self w') !! "D12" = None.
Proof.
  intros chunk data.
  destruct (suffix_wins_over_request float_int "DETD12 = ["
              ["1 1 1 1 1 1 1 1 1 1 9 4"] "D1" "2"%char D1 data with_D1 [])
    as (Hok & Hgrid & Hlonger); [reflexivity..|].
  split; [exact Hok|]. split; [exact Hgrid|exact Hlonger].
Defined.

(** X20: a second tally chunk for [D1]. *)
Lemma repeated_tally_becomes_grid_witness :
  let data := Arr2 [[1; 1; 1; 1; 1; 1; 1; 1; 1; 1; 9; 4]]%Z in
  ∃ w',
    detector.read_chunk float_int ["DETD1 = ["; "1 1 1 1 1 1 1 1 1 1 9 4"]
      (World with_D1 [])
    = (Return tt, w') ∧
    detector.detectors (self w')
    = <["D1" := {| detector.name := "D1";
                   detector.tallies := detector.tallies D1;
                   detector.grids := <[None := data]> ∅ |}]>
        (detector.detectors with_D1).
Proof.
  intros data.
  apply (repeated_tally_becomes_grid float_int "DETD1 = ["
           ["1 1 1 1 1 1 1 1 1 1 9 4"] "D1" D1 data with_D1 []);
    try reflexivity.
  left. in_list.
Defined.

(** X21: a file whose second chunk has a line that is not numeric. *)
Lemma _read_stops_at_bad_chunk_witness :
  let w1 := (for_each (detector.read_chunk float_int)
               [["DETD1 = ["; "1 1 1 1 1 1 1 1 1 1 5 2"]]
               (World reader [(INFO, "Preparing to read demo_det0.m")])).2 in
  detector._read float_int
    [ ["DETD1 = ["; "1 1 1 1 1 1 1 1 1 1 5 2"];
      ["DETD2 = ["; "1 1 1 oops"];
      ["DETD1E = ["; "0 10 5"] ]
    (World reader [])
  = (Raise ValueError, w1).
Proof.
  intros w1.
  apply (_read_stops_at_bad_chunk float_int
           [["DETD1 = ["; "1 1 1 1 1 1 1 1 1 1 5 2"]]
           [["DETD1E = ["; "0 10 5"]]
           ["DETD2 = ["; "1 1 1 oops"] ValueError reader [] w1 w1);
    reflexivity.
Defined.

(** X22: the detector [D1] of the filtered scan. *)
Lemma _read_well_formed_witness :
  let r' := self (detector._read float_int tally_chunks (World reader [])).2 in
  ∃ d, detector.detectors r' !! "D1" = Some d ∧
       detector.name d = "D1" ∧
       (∃ rows, detector.tallies d = Some (Arr2 rows) ∧
                Forall (λ row, length row = detector.NUM_COLS) rows) ∧
       "D1" ∈ ["D1"; "D2"].
Proof.
  intros r'.
  destruct (_read_well_formed float_int "demo_det0.m" ["D1"; "D2"]
              tally_chunks [] "D1"
              {| detector.name := "D1";
                 detector.tallies :=
                   Some (Arr2 [[1; 1; 1; 1; 1; 1; 1; 1; 1; 1; 5; 2]]%Z);
                 detector.grids := ∅ |})
    as (Hname & Htally & Hreq); [reflexivity|].
  eexists. split; [reflexivity|]. split; [exact Hname|].
  split; [exact Htally|]. apply Hreq. discriminate.
Defined.

(** X24: a reader that counted two start lines and stored two
    detectors. *)
Lemma _postcheck_silent_witness :
  let r := detector.set_detCount 2 (self filtered_scan) in
  detector._postcheck (World r []) = (Return tt, World r []).
Proof.
  intros r. apply (_postcheck_silent r []). reflexivity.
Defined.

End more_on_concrete_inputs.
